(** * Data-access layer and cache-aside helper of the diary service

    A shallow embedding of [src/core/mysql.core.js] (class [mysqlserver]) and
    of the cache helper (class [redisserver]), with the statements about
    them proved below.

    Conventions of the embedding.
    - A JavaScript value is a term of [value].  Numbers are the integers,
      [NaN] and the infinities (exact for safe integers, which [ToString]
      prints in decimal); strings are byte strings (exact on ASCII).
    - An object is the list of its own enumerable properties in the order
      [Object.keys] / [Object.entries] enumerate them, which for keys that
      are not array indices is the insertion order.
    - An [async] method is a computation in the monad [M]: it threads the
      history of what the process did to the outside world (statements sent
      to the database, commands sent to the cache, log lines) and ends
      either with a value (the promise resolves) or with an exception (it
      rejects).  The database driver and the cache client are oracles that
      answer from the history so far.  One logical flow is modelled; no
      interleaving of other requests. *)

From Stdlib Require Import String Ascii List ZArith Lia Bool Permutation.
From Stdlib Require Import DecimalString.
Import ListNotations.

Local Open Scope string_scope.
Local Open Scope Z_scope.

(** ** JavaScript values *)

(** Numbers: an integer, [NaN] or an infinity. *)
Inductive number : Type :=
| Finite (n : Z)
| NaN
| Infinity (negative : bool).

#[warnings="-register-all"]
Inductive value : Type :=
| VUndefined
| VNull
| VBool (b : bool)
| VNum (n : number)
| VStr (s : string)
| VArr (items : list value)
| VObj (props : list (string * value)).

Definition VInt (n : Z) : value := VNum (Finite n).

(** Thrown values: an [Error]-like object with its [name] and [message]. *)
Record exn : Type := Exn { ename : string; emessage : string }.

(** A step that either raises or yields a value. *)
Definition fallible (A : Type) : Type := (exn + A)%type.

Definition dquote : string := String (ascii_of_nat 34) EmptyString.

Module Js.

(** Decimal numeral of an integer, as [Number.prototype.toString] prints it. *)
Definition string_of_Z (n : Z) : string := NilZero.string_of_int (Z.to_int n).

Definition string_of_number (n : number) : string :=
  match n with
  | Finite z => string_of_Z z
  | NaN => "NaN"
  | Infinity false => "Infinity"
  | Infinity true => "-Infinity"
  end.

Definition join (sep : string) (l : list string) : string := String.concat sep l.

(** [ToString] of the language: what a template literal, [String(v)] and
    [Array.prototype.join] apply to a value. *)
Fixpoint ToString (v : value) : string :=
  match v with
  | VUndefined => "undefined"
  | VNull => "null"
  | VBool true => "true"
  | VBool false => "false"
  | VNum n => string_of_number n
  | VStr s => s
  | VArr items =>
      join "," (map (fun x => match x with
                              | VUndefined | VNull => EmptyString
                              | _ => ToString x
                              end) items)
  | VObj _ => "[object Object]"
  end.

(** [Array.prototype.join]: [null] and [undefined] elements print empty. *)
Definition array_join (sep : string) (items : list value) : string :=
  join sep (map (fun x => match x with
                          | VUndefined | VNull => EmptyString
                          | _ => ToString x
                          end) items).

(** [ToBoolean]. *)
Definition truthy (v : value) : bool :=
  match v with
  | VUndefined | VNull => false
  | VBool b => b
  | VNum (Finite n) => negb (n =? 0)
  | VNum NaN => false
  | VNum (Infinity _) => true
  | VStr EmptyString => false
  | VStr _ => true
  | VArr _ | VObj _ => true
  end.

(** [typeof v === 'object'] *)
Definition typeof_object (v : value) : bool :=
  match v with
  | VNull | VArr _ | VObj _ => true
  | _ => false
  end.

Definition typeof_string (v : value) : bool :=
  match v with VStr _ => true | _ => false end.

Definition isArray (v : value) : bool :=
  match v with VArr _ => true | _ => false end.

(** Index keys "0", "1", ... of an array or a string. *)
Definition index_keys (n : nat) : list string :=
  map (fun i => string_of_Z (Z.of_nat i)) (seq 0 n).

Definition chars (s : string) : list value :=
  map (fun c => VStr (String c EmptyString)) (list_ascii_of_string s).

Definition TypeError_nullish : exn :=
  Exn "TypeError" "Cannot convert undefined or null to object".

(** [Object.entries]: own enumerable string-keyed properties.  Primitives
    other than strings have none; [null] and [undefined] raise. *)
Definition entries (v : value) : fallible (list (string * value)) :=
  match v with
  | VUndefined | VNull => inl TypeError_nullish
  | VBool _ | VNum _ => inr []
  | VStr s => inr (combine (index_keys (String.length s)) (chars s))
  | VArr items => inr (combine (index_keys (List.length items)) items)
  | VObj props => inr props
  end.

(** [Object.keys] and [Object.values]. *)
Definition keys (v : value) : fallible (list string) :=
  match entries v with
  | inl e => inl e
  | inr ps => inr (map fst ps)
  end.

Definition values (v : value) : fallible (list value) :=
  match entries v with
  | inl e => inl e
  | inr ps => inr (map snd ps)
  end.

Fixpoint lookup (k : string) (ps : list (string * value)) : value :=
  match ps with
  | [] => VUndefined
  | (k', v) :: rest => if (k =? k')%string then v else lookup k rest
  end.

Definition TypeError_read (k : string) : exn :=
  Exn "TypeError" ("Cannot read properties of undefined or null (reading '" ++ k ++ "')").

(** Property read [v.k] for a name [k] that is not an index. *)
Definition get (v : value) (k : string) : fallible value :=
  match v with
  | VUndefined | VNull => inl (TypeError_read k)
  | VBool _ | VNum _ => inr VUndefined
  | VStr s => inr (if (k =? "length")%string
                   then VInt (Z.of_nat (String.length s)) else VUndefined)
  | VArr items => inr (if (k =? "length")%string
                       then VInt (Z.of_nat (List.length items)) else VUndefined)
  | VObj props => inr (lookup k props)
  end.

(** Element read [v[0]]. *)
Definition get0 (v : value) : fallible value :=
  match v with
  | VUndefined | VNull => inl (TypeError_read "0")
  | VBool _ | VNum _ => inr VUndefined
  | VStr s => inr (match s with
                   | EmptyString => VUndefined
                   | String c _ => VStr (String c EmptyString)
                   end)
  | VArr items => inr (match items with [] => VUndefined | x :: _ => x end)
  | VObj props => inr (lookup "0" props)
  end.

Definition is_ws (c : ascii) : bool :=
  let n := nat_of_ascii c in
  ((9 <=? n) && (n <=? 13) || (n =? 32))%nat.

Fixpoint trimStart (s : string) : string :=
  match s with
  | EmptyString => EmptyString
  | String c rest => if is_ws c then trimStart rest else s
  end.

Fixpoint trimEnd (s : string) : string :=
  match s with
  | EmptyString => EmptyString
  | String c rest =>
      match trimEnd rest with
      | EmptyString => if is_ws c then EmptyString else String c EmptyString
      | r => String c r
      end
  end.

Definition trim (s : string) : string := trimEnd (trimStart s).

Definition upper (c : ascii) : ascii :=
  let n := nat_of_ascii c in
  if ((97 <=? n) && (n <=? 122))%nat then ascii_of_nat (n - 32) else c.

Fixpoint toUpperCase (s : string) : string :=
  match s with
  | EmptyString => EmptyString
  | String c rest => String (upper c) (toUpperCase rest)
  end.

(** Value of a digit in radix 10 or 16. *)
Definition digit (radix : Z) (c : ascii) : option Z :=
  let n := Z.of_nat (nat_of_ascii c) in
  let d := if (48 <=? n) && (n <=? 57) then Some (n - 48)
           else if (97 <=? n) && (n <=? 102) then Some (n - 87)
           else if (65 <=? n) && (n <=? 70) then Some (n - 55)
           else None in
  match d with
  | Some k => if k <? radix then Some k else None
  | None => None
  end.

(** Longest prefix of digits, read in [radix]; [None] when there is none. *)
Fixpoint digits (radix : Z) (acc : option Z) (s : string) : option Z :=
  match s with
  | EmptyString => acc
  | String c rest =>
      match digit radix c with
      | Some d =>
          digits radix (Some (radix * match acc with Some a => a | None => 0 end + d)) rest
      | None => acc
      end
  end.

Definition strip_hex (s : string) : option string :=
  match s with
  | String "0" (String "x" rest) => Some rest
  | String "0" (String "X" rest) => Some rest
  | _ => None
  end.

Definition parseInt_string (s : string) : number :=
  let s := trimStart s in
  let '(neg, s) := match s with
                   | String "-" rest => (true, rest)
                   | String "+" rest => (false, rest)
                   | _ => (false, s)
                   end in
  let r := match strip_hex s with
           | Some rest => digits 16 None rest
           | None => digits 10 None s
           end in
  match r with
  | Some n => Finite (if neg then - n else n)
  | None => NaN
  end.

(** [parseInt(v)]: the argument is converted with [ToString] first. *)
Definition parseInt (v : value) : number := parseInt_string (ToString v).

(** All of [s] read as digits in [radix]; [None] when [s] is empty or holds
    another character. *)
Fixpoint all_digits (radix : Z) (acc : Z) (s : string) : option Z :=
  match s with
  | EmptyString => Some acc
  | String c rest =>
      match digit radix c with
      | Some d => all_digits radix (radix * acc + d) rest
      | None => None
      end
  end.

Definition numeral (radix : Z) (s : string) : option Z :=
  match s with
  | EmptyString => None
  | _ => all_digits radix 0 s
  end.

(** [ToNumber] of a string, for the texts that denote an integer or an
    infinity; every other text reads as [NaN] (fractions and exponents
    denote numbers outside this embedding). *)
Definition ToNumber_string (s : string) : number :=
  match trim s with
  | EmptyString => Finite 0
  | t =>
      match strip_hex t with
      | Some rest => match numeral 16 rest with
                     | Some n => Finite n
                     | None => NaN
                     end
      | None =>
          let '(neg, body) := match t with
                              | String "-" rest => (true, rest)
                              | String "+" rest => (false, rest)
                              | _ => (false, t)
                              end in
          if (body =? "Infinity")%string then Infinity neg
          else match numeral 10 body with
               | Some n => Finite (if neg then - n else n)
               | None => NaN
               end
      end
  end.

(** [ToNumber]: objects and arrays convert through [ToString]. *)
Definition ToNumber (v : value) : number :=
  match v with
  | VUndefined => NaN
  | VNull => Finite 0
  | VBool true => Finite 1
  | VBool false => Finite 0
  | VNum n => n
  | VStr s => ToNumber_string s
  | VArr _ | VObj _ => ToNumber_string (ToString v)
  end.

(** [x > 0]: the operand converts with [ToNumber]; [NaN] compares false. *)
Definition gt0 (v : value) : bool :=
  match ToNumber v with
  | Finite n => 0 <? n
  | Infinity negative => negb negative
  | NaN => false
  end.

(** [Math.ceil(a / b)] for a number [a] and an integer [b]. *)
Definition ceil_div (a : number) (b : Z) : number :=
  match a with
  | NaN => NaN
  | Infinity neg => if b =? 0 then Infinity neg
                    else Infinity (if 0 <? b then neg else negb neg)
  | Finite n =>
      if b =? 0 then
        (if n =? 0 then NaN else Infinity (n <? 0))
      else Finite (- ((- n) / b))
  end.

End Js.

(** ** JSON serialization *)

Module JSON.

Definition hex_digit (n : nat) : ascii :=
  ascii_of_nat (if (n <? 10)%nat then 48 + n else 87 + n).

(** Escape of one character inside a JSON string literal. *)
Definition escape (c : ascii) : string :=
  let n := nat_of_ascii c in
  if (n =? 34)%nat then "\" ++ dquote
  else if (n =? 92)%nat then "\\"
  else if (n =? 8)%nat then "\b"
  else if (n =? 12)%nat then "\f"
  else if (n =? 10)%nat then "\n"
  else if (n =? 13)%nat then "\r"
  else if (n =? 9)%nat then "\t"
  else if (n <? 32)%nat
       then "\u00" ++ String (hex_digit (n / 16)) (String (hex_digit (n mod 16)) EmptyString)
  else String c EmptyString.

Fixpoint escape_all (s : string) : string :=
  match s with
  | EmptyString => EmptyString
  | String c rest => escape c ++ escape_all rest
  end.

Definition quote (s : string) : string := dquote ++ escape_all s ++ dquote.

(** Text of a value, [None] where [JSON.stringify] yields [undefined].
    A property whose value has no text is left out of an object; such an
    element of an array is written [null]; a number that is not finite is
    written [null]. *)
Fixpoint text (v : value) : option string :=
  match v with
  | VUndefined => None
  | VNull => Some "null"
  | VBool true => Some "true"
  | VBool false => Some "false"
  | VNum (Finite n) => Some (Js.string_of_Z n)
  | VNum _ => Some "null"
  | VStr s => Some (quote s)
  | VArr items =>
      Some ("[" ++ Js.join ","
                     (map (fun x => match text x with
                                    | Some t => t
                                    | None => "null"
                                    end) items) ++ "]")
  | VObj props =>
      Some ("{" ++ Js.join ","
                     (flat_map (fun p => match text (snd p) with
                                         | Some t => [quote (fst p) ++ ":" ++ t]
                                         | None => []
                                         end) props) ++ "}")
  end.

(** [JSON.stringify(v)], as a value: a string or [undefined]. *)
Definition stringify (v : value) : value :=
  match text v with
  | Some t => VStr t
  | None => VUndefined
  end.

End JSON.

(** ** The outside world and the monad of asynchronous methods *)

Inductive event : Type :=
| EQuery (sql : string) (binds : value)
| ERedisGet (key : string)
| ERedisSet (key : string) (val : value)
| ERedisExpire (key : string) (ttl : Z)
| ELog (level label detail : string).

Definition history : Type := list event.

Definition M (A : Type) : Type := history -> history * fallible A.

Definition ret {A} (a : A) : M A := fun h => (h, inr a).

Definition throw {A} (e : exn) : M A := fun h => (h, inl e).

Definition bind {A B} (m : M A) (k : A -> M B) : M B :=
  fun h => match m h with
           | (h', inr a) => k a h'
           | (h', inl e) => (h', inl e)
           end.

(** [try { m } catch (error) { handler error }] *)
Definition try_catch {A} (m : M A) (handler : exn -> M A) : M A :=
  fun h => match m h with
           | (h', inl e) => handler e h'
           | r => r
           end.

Definition emit (ev : event) : M unit := fun h => ((h ++ [ev])%list, inr tt).

(** A pure step that may raise. *)
Definition lift {A} (r : fallible A) : M A := fun h => (h, r).

Declare Scope async_scope.
Delimit Scope async_scope with async.
Notation "x <- m ;; k" := (bind m (fun x => k))
  (at level 100, m at next level, right associativity) : async_scope.
Notation "' pat <- m ;; k" := (bind m (fun x => let 'pat := x in k))
  (at level 100, pat pattern, m at next level, right associativity) : async_scope.
Notation "m ;;; k" := (bind m (fun _ => k))
  (at level 100, right associativity) : async_scope.
Local Open Scope async_scope.

(** [Error.prototype.toString]. *)
Definition exn_to_string (e : exn) : string :=
  match ename e, emessage e with
  | EmptyString, m => m
  | n, EmptyString => n
  | n, m => n ++ ": " ++ m
  end.

(** [new Error(message)] and [new Error(error)]: the argument becomes the
    message through [ToString]. *)
Definition Error (message : string) : exn := Exn "Error" message.
Definition new_Error (error : exn) : exn := Error (exn_to_string error).

(** [instance.logger.<level>(label, detail)] *)
Definition log (level label detail : string) : M unit := emit (ELog level label detail).

(** The statements a history sent to the database, in order. *)
Definition statements (h : history) : list (string * value) :=
  flat_map (fun ev => match ev with EQuery sql binds => [(sql, binds)] | _ => [] end) h.

(** The database driver: [connection.query(sql, values)] resolves to
    [[rows, fields]] or rejects; the oracle gives [rows]. *)
Record driver : Type := Driver { answer : history -> string -> value -> fallible value }.

(** A connection handle as the methods receive it: the literal [false], or
    a pooled connection of the driver. *)
Inductive connection : Type :=
| ConnFalse
| Conn (d : driver).

Definition driver_query (d : driver) (sql : string) (values : value) : M value :=
  fun h => ((h ++ [EQuery sql values])%list, answer d h sql values).

(** [connection.query(sql, values)], called on the handle directly. *)
Definition connection_query (c : connection) (sql : string) (values : value) : M value :=
  match c with
  | ConnFalse => throw (Exn "TypeError" "connection.query is not a function")
  | Conn d => driver_query d sql values
  end.

(** ** The cache helper: class [redisserver] *)

(** How a call that returns a promise can end: it raises before returning
    one, or the promise it returns rejects, or resolves. *)
Inductive outcome : Type :=
| Throws (e : exn)
| Rejects (e : exn)
| Resolves (v : value).

(** The cache client.  [get] and [expire] are awaited where they are called,
    so raising and rejecting are not told apart for them. *)
Record client : Type := Client {
  redis_get : history -> string -> fallible value;
  redis_set : history -> string -> value -> outcome;
  redis_expire : history -> string -> Z -> fallible value
}.

Record redisserver : Type := Redisserver { redisClient : client }.

Section Redis.

(** [config.env], the deployment-environment prefix of every key, and the
    runtime's [JSON.parse], which raises on malformed text. *)
Variable config_env : value.
Variable JSON_parse : string -> fallible value.

Definition prefixed (key : string) : string := Js.ToString config_env ++ "_" ++ key.

Definition getAsync (this : redisserver) (key : string) : M value :=
  let key := prefixed key in
  try_catch
    (fun h => ((h ++ [ERedisGet key])%list, redis_get (redisClient this) h key))
    (fun _ => ret (VBool false)).

(** [set] is called and its promise kept in [result] without awaiting it;
    [return result] then settles the method's own promise with it, outside
    the reach of the [catch].  A rejection of [set] therefore leaves the
    method unless [expire] failed first. *)
Definition setAsync (this : redisserver) (key : string) (val : value) (expireTTL : Z)
  : M value :=
  let key := prefixed key in
  fun h =>
    let h1 := (h ++ [ERedisSet key val])%list in
    match redis_set (redisClient this) h key val with
    | Throws _ => (h1, inr (VBool false))
    | result =>
        let settle h' :=
          match result with
          | Rejects e => (h', inl e)
          | Resolves v => (h', inr v)
          | Throws _ => (h', inr (VBool false))
          end in
        if 0 <? expireTTL then
          let h2 := (h1 ++ [ERedisExpire key expireTTL])%list in
          match redis_expire (redisClient this) h1 key expireTTL with
          | inl _ => (h2, inr (VBool false))
          | inr _ => settle h2
          end
        else settle h1
    end.

Definition getOrSetCache (this : redisserver) (key : string) (fetchFunction : M value)
    (expireSeconds : Z) : M value :=
  try_catch
    (result <- getAsync this key ;;
     if negb (Js.truthy result) then
       result <- fetchFunction ;;
       (if Js.truthy result
        then (setAsync this key (JSON.stringify result) expireSeconds ;;; ret tt)
        else ret tt) ;;;
       ret result
     else
       lift (JSON_parse (Js.ToString result)))
    (fun error =>
       log "error" "Redis getOrSetCache error:" (exn_to_string error) ;;;
       ret VNull).

End Redis.

(** ** The data-access layer: class [mysqlserver] *)

Record mysqlserver : Type := Mysqlserver {
  tableName : string;
  primaryField : string;
  sortKey : string
}.

Definition nl : string := String (ascii_of_nat 10) EmptyString.

(** [fieldName.replace(/`/g, '``')] *)
Fixpoint double_backticks (s : string) : string :=
  match s with
  | EmptyString => EmptyString
  | String c rest =>
      if (c =? "`")%char
      then String c (String c (double_backticks rest))
      else String c (double_backticks rest)
  end.

Definition _escapeFieldName (fieldName : string) : string :=
  "`" ++ double_backticks fieldName ++ "`".

Definition nullish (v : value) : bool :=
  match v with
  | VUndefined | VNull => true
  | _ => false
  end.

(** [likeFields.includes(key)] for an array of field names. *)
Definition includes (likeFields : list string) (key : string) : bool :=
  existsb (String.eqb key) likeFields.

(** [array.push(x)]: the array with [x] added at its end. *)
Definition push {A} (array : list A) (x : A) : list A := (array ++ [x])%list.

(** One turn of the loop of [_buildWhereClause]: the two arrays after the
    entry has been looked at. *)
Definition where_step (likeFields : list string)
    (acc : list string * list value) (entry : string * value)
  : list string * list value :=
  let '(conditions, values) := acc in
  let '(key, val) := entry in
  if negb (nullish val) then
    if includes likeFields key
    then (push conditions (_escapeFieldName key ++ " LIKE ?"),
          push values (VStr ("%" ++ Js.ToString val ++ "%")))
    else (push conditions (_escapeFieldName key ++ " = ?"),
          push values val)
  else acc.

Definition _buildWhereClause (filter : value) (likeFields : list string)
  : fallible (string * list value) :=
  match Js.keys filter with
  | inl e => inl e
  | inr ks =>
      if (List.length ks =? 0)%nat then inr (EmptyString, [])
      else
        match Js.entries filter with
        | inl e => inl e
        | inr es =>
            let '(conditions, values) := fold_left (where_step likeFields) es ([], []) in
            inr (if (0 <? List.length conditions)%nat
                 then "WHERE " ++ Js.join " AND " conditions
                 else EmptyString,
                 values)
        end
  end.

(** The string a value of type string holds. *)
Definition string_of (v : value) : string :=
  match v with
  | VStr s => s
  | _ => EmptyString
  end.

Definition is_empty_string (s : string) : bool :=
  match s with
  | EmptyString => true
  | _ => false
  end.

Definition sortField (entry : string * value) : string :=
  let '(key, val) := entry in
  _escapeFieldName key ++ " " ++
  (if match val with VNum (Finite (-1)) => true | _ => false end
      || (Js.toUpperCase (Js.ToString val) =? "DESC")%string
   then "DESC" else "ASC").

Definition _buildOrderByClause (this : mysqlserver) (orderBy : value) : fallible string :=
  let fallback := "ORDER BY " ++ _escapeFieldName (primaryField this) ++ " DESC" in
  if Js.typeof_string orderBy && negb (is_empty_string (Js.trim (string_of orderBy)))
  then inr ("ORDER BY " ++ string_of orderBy)
  else if Js.typeof_object orderBy then
    match Js.entries orderBy with
    | inl e => inl e
    | inr es =>
        if (0 <? List.length es)%nat
        then inr ("ORDER BY " ++ Js.join ", " (map sortField es))
        else inr fallback
    end
  else inr fallback.

(** The handler every method of the class ends with:
    [catch (error) { instance.logger.error('mysql core error:', error);
                     throw new Error(error); }] *)
Definition rethrown {A} (m : M A) : M A :=
  try_catch m
    (fun error =>
       log "error" "mysql core error:" (exn_to_string error) ;;;
       throw (new_Error error)).

Definition queryAsync (connection : connection) (sql : string) (values : value) : M value :=
  match connection with
  | ConnFalse => ret (VBool false)
  | Conn d =>
      log "debug" "[query]" sql ;;;
      log "debug" "[values]" (Js.ToString (JSON.stringify values)) ;;;
      rethrown (driver_query d sql values)
  end.

Definition is_zero (v : value) : bool :=
  match v with
  | VNum (Finite 0) => true
  | _ => false
  end.

Definition allAsync (this : mysqlserver) (connection : connection)
    (select : string) (orderBy : value) : M value :=
  orderByClause <- lift (_buildOrderByClause this orderBy) ;;
  let sql := "SELECT " ++ select ++ " FROM " ++ _escapeFieldName (tableName this)
             ++ " " ++ orderByClause in
  rethrown
    (result <- queryAsync connection sql (VObj []) ;;
     len <- lift (Js.get result "length") ;;
     ret (if is_zero len then VBool false else result)).

(** [typeof filter !== 'object' || Array.isArray(filter)] *)
Definition not_plain_object (v : value) : bool :=
  negb (Js.typeof_object v) || Js.isArray v.

Definition findOneByFilterAsync (this : mysqlserver) (connection : connection)
    (filter : value) (likeFields : list string) (select : string) : M value :=
  if not_plain_object filter then throw (Error "Filter must be an object") else
  '(where_, values) <- lift (_buildWhereClause filter likeFields) ;;
  let sql := "SELECT " ++ select ++ " FROM " ++ _escapeFieldName (tableName this)
             ++ " " ++ where_ ++ " LIMIT 1" in
  rethrown
    (result <- queryAsync connection sql (VArr values) ;;
     len <- lift (Js.get result "length") ;;
     if Js.gt0 len then lift (Js.get0 result) else ret (VBool false)).

Definition findByFilterAsync (this : mysqlserver) (connection : connection)
    (filter : value) (likeFields : list string) (select : string) (orderBy : value)
  : M value :=
  if not_plain_object filter then throw (Error "Filter must be an object") else
  '(where_, values) <- lift (_buildWhereClause filter likeFields) ;;
  orderByClause <- lift (_buildOrderByClause this orderBy) ;;
  let sql := "SELECT " ++ select ++ " FROM " ++ _escapeFieldName (tableName this)
             ++ " " ++ where_ ++ " " ++ orderByClause in
  rethrown (queryAsync connection sql (VArr values)).

(** [result.length > 0 ? parseInt(result[0].CNT) : 0], the expression both
    counting methods apply to the rows of their count statement. *)
Definition count_of (result : value) : fallible number :=
  match Js.get result "length" with
  | inl e => inl e
  | inr len =>
      if Js.gt0 len then
        match Js.get0 result with
        | inl e => inl e
        | inr row =>
            match Js.get row "CNT" with
            | inl e => inl e
            | inr cnt => inr (Js.parseInt cnt)
            end
        end
      else inr (Finite 0)
  end.

Definition count_sql (this : mysqlserver) (where_ : string) : string :=
  "SELECT COUNT(" ++ _escapeFieldName (primaryField this) ++ ") AS CNT FROM "
  ++ _escapeFieldName (tableName this) ++ " " ++ where_.

Definition countByFilterAsync (this : mysqlserver) (connection : connection)
    (filter : value) (likeFields : list string) : M value :=
  if not_plain_object filter then throw (Error "Filter must be an object") else
  '(where_, values) <- lift (_buildWhereClause filter likeFields) ;;
  let sql := count_sql this where_ in
  rethrown
    (result <- queryAsync connection sql (VArr values) ;;
     n <- lift (count_of result) ;;
     ret (VNum n)).

Definition page_sql (this : mysqlserver) (select where_ orderByClause : string) : string :=
  nl ++ "      SELECT " ++ select ++ " FROM " ++ _escapeFieldName (tableName this) ++
  nl ++ "      " ++ where_ ++
  nl ++ "      " ++ orderByClause ++
  nl ++ "      LIMIT ? OFFSET ?" ++
  nl ++ "    ".

Definition page_countSql (this : mysqlserver) (where_ : string) : string :=
  nl ++ "      SELECT COUNT(*) as CNT FROM " ++ _escapeFieldName (tableName this) ++
  nl ++ "      " ++ where_ ++
  nl ++ "    ".

Definition findByPageAsync (this : mysqlserver) (connection : connection)
    (filter : value) (likeFields : list string) (select : string)
    (page pageSize : Z) (sort : value) : M value :=
  rethrown
    ('(where_, values) <- lift (_buildWhereClause filter likeFields) ;;
     let offset := (page - 1) * pageSize in
     orderByClause <- lift (_buildOrderByClause this sort) ;;
     let sql := page_sql this select where_ orderByClause in
     let countSql := page_countSql this where_ in
     documents <- queryAsync connection sql
                    (VArr (values ++ [VInt pageSize; VInt offset])%list) ;;
     result <- queryAsync connection countSql (VArr values) ;;
     totalCount <- lift (count_of result) ;;
     ret (VObj [("documents", documents);
                ("page", VInt page);
                ("pageSize", VInt pageSize);
                ("totalCount", VNum totalCount);
                ("totalPages", VNum (Js.ceil_div totalCount pageSize))])).

Definition insertAsync (this : mysqlserver) (connection : connection) (datas : value)
  : M value :=
  if not_plain_object datas then throw (Error "Data must be an object") else
  ks <- lift (Js.keys datas) ;;
  if (List.length ks =? 0)%nat then throw (Error "Data object cannot be empty") else
  let columns := map _escapeFieldName ks in
  let placeholders := map (fun _ => "?") columns in
  values <- lift (Js.values datas) ;;
  let sql := "INSERT INTO " ++ _escapeFieldName (tableName this)
             ++ " (" ++ Js.join ", " columns
             ++ ") VALUES (" ++ Js.join ", " placeholders ++ ")" in
  rethrown
    (result <- queryAsync connection sql (VArr values) ;;
     if negb (Js.truthy result) then ret (VBool false)
     else lift (Js.get result "insertId")).

(** [typeof v !== 'object' || Array.isArray(v) || Object.keys(v).length === 0] *)
Definition not_nonempty_object (v : value) : fallible bool :=
  if not_plain_object v then inr true
  else match Js.keys v with
       | inl e => inl e
       | inr ks => inr (List.length ks =? 0)%nat
       end.

(** [WHERE `k1` = ? AND `k2` = ? ...] over the keys of a mapping, as update
    and delete write it. *)
Definition where_of_keys (ks : list string) : string :=
  "WHERE " ++ Js.join " AND " (map (fun key => _escapeFieldName key ++ " = ?") ks).

Definition updateByFilterAsync (this : mysqlserver) (connection : connection)
    (filter datas : value) : M value :=
  rethrown
    (bad <- lift (not_nonempty_object datas) ;;
     if bad then throw (Error "Data must be an object") else
     dks <- lift (Js.keys datas) ;;
     let setClause := Js.join ", " (map (fun key => _escapeFieldName key ++ " = ?") dks) in
     values <- lift (Js.values datas) ;;
     '(whereClause, values) <-
        (if Js.typeof_object filter && negb (Js.isArray filter) then
           fks <- lift (Js.keys filter) ;;
           fvs <- lift (Js.values filter) ;;
           ret (where_of_keys fks, (values ++ fvs)%list)
         else if Js.typeof_string filter
                 && negb (is_empty_string (Js.trim (string_of filter))) then
           ret (string_of filter, values)
         else throw (Error "A valid filter condition must be provided.")) ;;
     let sql := "UPDATE " ++ _escapeFieldName (tableName this)
                ++ " SET " ++ setClause ++ " " ++ whereClause in
     result <- queryAsync connection sql (VArr values) ;;
     affectedRows <- lift (Js.get result "affectedRows") ;;
     ret (VBool (Js.gt0 affectedRows))).

Definition upsert_sql (this : mysqlserver) (columns : list string) : string :=
  let updateSet :=
    Js.join ", " (map (fun col => _escapeFieldName col ++ " = VALUES("
                                  ++ _escapeFieldName col ++ ")") columns) in
  nl ++ "    INSERT INTO " ++ _escapeFieldName (tableName this) ++
  nl ++ "    (" ++ Js.join ", " (map _escapeFieldName columns) ++ ")" ++
  nl ++ "    VALUES (" ++ Js.join ", " (map (fun _ => "?") columns) ++ ")" ++
  nl ++ "    ON DUPLICATE KEY UPDATE" ++
  nl ++ "    " ++ updateSet ++
  nl ++ "  ".

Definition upsertAsync (this : mysqlserver) (connection : connection)
    (filter data : value) : M value :=
  bad <- lift (not_nonempty_object filter) ;;
  if bad then throw (Error "Filter must be a non-empty object") else
  bad <- lift (not_nonempty_object data) ;;
  if bad then throw (Error "Data must be a non-empty object") else
  columns <- lift (Js.keys data) ;;
  values <- lift (Js.values data) ;;
  let sql := upsert_sql this columns in
  try_catch
    (result <- connection_query connection sql (VArr values) ;;
     affectedRows <- lift (Js.get result "affectedRows") ;;
     ret (VBool (Js.gt0 affectedRows)))
    (fun error =>
       log "error" "MySQL upsertAsync error:" (exn_to_string error) ;;;
       throw error).

Definition deleteByFilterAsync (this : mysqlserver) (connection : connection)
    (filter : value) : M value :=
  rethrown
    ('(whereClause, values) <-
        (if Js.typeof_object filter && negb (Js.isArray filter) then
           fks <- lift (Js.keys filter) ;;
           fvs <- lift (Js.values filter) ;;
           ret (where_of_keys fks, fvs)
         else if Js.typeof_string filter
                 && negb (is_empty_string (Js.trim (string_of filter))) then
           ret ("WHERE " ++ string_of filter, [])
         else throw (Error "유효한 필터 조건이 제공되어야 합니다")) ;;
     let sql := "DELETE FROM " ++ _escapeFieldName (tableName this) ++ " " ++ whereClause in
     result <- queryAsync connection sql (VArr values) ;;
     affectedRows <- lift (Js.get result "affectedRows") ;;
     ret (VBool (Js.gt0 affectedRows))).

(** ** Cached reads

    [redisServer] is the cache helper the module imports from
    [./redis.core.js].  [getOrSetCache] is an instance method of class
    [redisserver], so the cached reads are modelled with that name bound to
    an instance of the class, which holds the client. *)

Section Cached.

Variable config_env : value.
Variable JSON_parse : string -> fallible value.
Variable redisServer : redisserver.

Definition cache := getOrSetCache config_env JSON_parse redisServer.

(** The key each cached read builds, as a function of the arguments that
    select the query. *)
Definition all_cacheKey (this : mysqlserver) (select : string) (orderBy : value) : string :=
  Js.array_join "__" [VStr "mysql"; VStr (tableName this); VStr select; orderBy].

Definition findOne_cacheKey (this : mysqlserver) (filter : value)
    (likeFields : list string) (select : string) : string :=
  Js.array_join "__" [VStr "mysql"; VStr (tableName this); JSON.stringify filter; VStr select].

Definition findByFilter_cacheKey (this : mysqlserver) (filter : value)
    (likeFields : list string) (select : string) (orderBy : value) : string :=
  Js.array_join "__"
    [VStr "mysql"; VStr (tableName this); JSON.stringify filter; VStr select; orderBy].


Definition allFromCacheAsync (this : mysqlserver) (connection : connection)
    (select : string) (orderBy : value) (expireSeconds : Z) : M value :=
  let cacheKey := all_cacheKey this select orderBy in
  cache cacheKey (allAsync this connection select orderBy) expireSeconds.


Definition findByFilterFromCacheAsync (this : mysqlserver) (connection : connection)
    (filter : value) (likeFields : list string) (select : string) (orderBy : value)
    (expireSeconds : Z) : M value :=
  if not_plain_object filter then throw (Error "Data must be an object") else
  let cacheKey := findByFilter_cacheKey this filter likeFields select orderBy in
  cache cacheKey
    (findByFilterAsync this connection filter likeFields select orderBy)
    expireSeconds.


End Cached.

(** The statements of the write operations. *)
Definition insert_sql (this : mysqlserver) (ks : list string) : string :=
  "INSERT INTO " ++ _escapeFieldName (tableName this)
  ++ " (" ++ Js.join ", " (map _escapeFieldName ks)
  ++ ") VALUES (" ++ Js.join ", " (map (fun _ => "?") (map _escapeFieldName ks)) ++ ")".

Definition update_sql (this : mysqlserver) (dks : list string) (whereClause : string)
  : string :=
  "UPDATE " ++ _escapeFieldName (tableName this)
  ++ " SET " ++ Js.join ", " (map (fun key => _escapeFieldName key ++ " = ?") dks)
  ++ " " ++ whereClause.

Definition delete_sql (this : mysqlserver) (whereClause : string) : string :=
  "DELETE FROM " ++ _escapeFieldName (tableName this) ++ " " ++ whereClause.

(** ** Reading a history *)

(** The history at which the driver is asked a statement sent through
    [queryAsync] from [h] (the two debug lines come first), and the history
    once it has been sent. *)
Definition asked (h : history) (sql : string) (values : value) : history :=
  (h ++ [ELog "debug" "[query]" sql;
         ELog "debug" "[values]" (Js.ToString (JSON.stringify values))])%list.

Definition sent (h : history) (sql : string) (values : value) : history :=
  (asked h sql values ++ [EQuery sql values])%list.

(** What the lookup hands to [getOrSetCache] at history [h]: the client's
    reply, or [false] when the client failed. *)
Definition looked_up (config_env : value) (this : redisserver) (h : history) (key : string)
  : value :=
  match redis_get (redisClient this) h (prefixed config_env key) with
  | inr v => v
  | inl _ => VBool false
  end.

(** The line the shared handler logs for an error. *)
Definition logged (e : exn) : event := ELog "error" "mysql core error:" (exn_to_string e).

(** What the two methods return for the rows the driver answered:
    [result.affectedRows > 0], or the rethrown [TypeError] when the rows
    are [null] or [undefined]. *)
Definition affected (h : history) (r : value) : history * fallible value :=
  match Js.get r "affectedRows" with
  | inr a => (h, inr (VBool (Js.gt0 a)))
  | inl e => ((h ++ [logged e])%list, inl (new_Error e))
  end.

(** What [insertAsync] returns for the rows the driver answered: [false]
    for falsy rows, else their [insertId]. *)
Definition inserted (r : value) : value :=
  if Js.truthy r
  then match Js.get r "insertId" with
       | inr v => v
       | inl _ => VUndefined
       end
  else VBool false.

(** A flat key-value mapping, in the words of the specification: an object
    that is not an array and whose values are all scalars. *)
Definition scalar (v : value) : bool :=
  match v with
  | VArr _ | VObj _ => false
  | _ => true
  end.

Definition flat_mapping (v : value) : bool :=
  match v with
  | VObj props => forallb (fun p => scalar (snd p)) props
  | _ => false
  end.

(** ** The WHERE clause, in the words of the specification *)

Module WhereSpec.

(** An entry constrains the query when its value is neither [null] nor
    [undefined]. *)
Definition constrains (entry : string * value) : bool := negb (nullish (snd entry)).

(** The condition an entry yields: LIKE for a like-field, equality otherwise. *)
Definition condition (likeFields : list string) (entry : string * value) : string :=
  if includes likeFields (fst entry)
  then _escapeFieldName (fst entry) ++ " LIKE ?"
  else _escapeFieldName (fst entry) ++ " = ?".

(** The value bound for it: wrapped in percent signs for a like-field, as it
    is otherwise. *)
Definition bound (likeFields : list string) (entry : string * value) : value :=
  if includes likeFields (fst entry)
  then VStr ("%" ++ Js.ToString (snd entry) ++ "%")
  else snd entry.

(** The conditions joined by AND behind the keyword, or nothing at all. *)
Definition clause (conditions : list string) : string :=
  match conditions with
  | [] => EmptyString
  | _ => "WHERE " ++ Js.join " AND " conditions
  end.

Definition where_of (props : list (string * value)) (likeFields : list string)
  : string * list value :=
  let kept := filter constrains props in
  (clause (map (condition likeFields) kept), map (bound likeFields) kept).

End WhereSpec.

(** ** Stores used in the examples *)

Module Examples.

Fixpoint has_substring (needle s : string) : bool :=
  String.prefix needle s
  || match s with
     | EmptyString => false
     | String _ rest => has_substring needle rest
     end.

(** A store that answers every statement with the one row [{CNT: 21}]. *)
Definition counting_driver : driver :=
  Driver (fun _ _ _ => inr (VArr [VObj [("CNT", VInt 21)]])).




(** A cache with no entry, whose commands all succeed. *)
Definition empty_client : client :=
  Client (fun _ _ => inr VNull)
         (fun _ _ _ => Resolves (VStr "OK"))
         (fun _ _ _ => inr (VBool true)).

(** A cache at its memory limit: reads are served, SET is refused with an
    error reply, EXPIRE of the key that was not written replies false. *)
Definition oom : exn :=
  Exn "Error" "OOM command not allowed when used memory > 'maxmemory'.".

Definition full_client : client :=
  Client (fun _ _ => inr VNull)
         (fun _ _ _ => Rejects oom)
         (fun _ _ _ => inr (VBool false)).

(** A cache that cannot be reached: every command rejects. *)
Definition closed : exn := Exn "ClientClosedError" "The client is closed".

Definition closed_client : client :=
  Client (fun _ _ => inl closed)
         (fun _ _ _ => Rejects closed)
         (fun _ _ _ => inl closed).

(** A database that refuses every statement. *)
Definition refused : exn := Exn "Error" "connect ECONNREFUSED 127.0.0.1:3306".

Definition down_driver : driver := Driver (fun _ _ _ => inl refused).

Definition diaries : mysqlserver := Mysqlserver "diaries" "id" EmptyString.

(** A store that answers every statement with the header of a write that
    touched one row and generated the key 7. *)
Definition header : value := VObj [("affectedRows", VInt 1); ("insertId", VInt 7)].

Definition writing_driver : driver := Driver (fun _ _ _ => inr header).

(** A cache that keeps what it was told: [get] replies the value of the
    last SET of the key in the history, [null] when there is none. *)
Fixpoint last_set (key : string) (h : history) (found : value) : value :=
  match h with
  | [] => found
  | ERedisSet k v :: rest => last_set key rest (if (k =? key)%string then v else found)
  | _ :: rest => last_set key rest found
  end.

Definition memory_client : client :=
  Client (fun h key => inr (last_set key h VNull))
         (fun _ _ _ => Resolves (VStr "OK"))
         (fun _ _ _ => inr (VBool true)).

(** Table [diaries] with the one row (id 1, title 'xyz'): a LIKE statement
    finds it, any other statement finds no row. *)
Definition xyz : value := VObj [("id", VInt 1); ("title", VStr "xyz")].

Definition xyz_driver : driver :=
  Driver (fun _ sql _ => if has_substring "LIKE" sql then inr (VArr [xyz]) else inr (VArr [])).

(** A [JSON.parse] that reads the text of that row, and nothing else. *)
Definition parse_xyz (s : string) : fallible value :=
  if (s =? Js.ToString (JSON.stringify xyz))%string then inr xyz
  else inl (Exn "SyntaxError" "Unexpected token").

End Examples.

(** ** Further methods of the two classes *)

(** [startTransactionAsync], [rollbackTransactionAsync] and
    [commitTransactionAsync]: the statement goes to [connection.query]
    with no second argument; none of them reads [this]. *)
Definition startTransactionAsync (connection : connection) : M value :=
  rethrown (connection_query connection "START TRANSACTION" VUndefined ;;; ret (VBool true)).

Definition rollbackTransactionAsync (connection : connection) : M value :=
  rethrown (connection_query connection "ROLLBACK" VUndefined ;;; ret (VBool true)).

Definition commitTransactionAsync (connection : connection) : M value :=
  rethrown (connection_query connection "COMMIT" VUndefined ;;; ret (VBool true)).

Definition callProcedureAsync (connection : connection) (sql : string) (values : value)
  : M value :=
  rethrown
    (rows <- connection_query connection ("call " ++ sql) values ;;
     lift (Js.get0 rows)).

Definition expireAsync (config_env : value) (this : redisserver) (key : string) (ttl : Z)
  : M value :=
  let key := prefixed config_env key in
  try_catch
    (fun h => ((h ++ [ERedisExpire key ttl])%list, redis_expire (redisClient this) h key ttl))
    (fun _ => ret (VBool false)).

Section CachedPage.

Variable config_env : value.
Variable JSON_parse : string -> fallible value.
Variable redisServer : redisserver.




End CachedPage.

(** The keys of the cache commands in a history, in order. *)
Definition redis_keys (h : history) : list string :=
  flat_map (fun ev => match ev with
                      | ERedisGet k | ERedisSet k _ | ERedisExpire k _ => [k]
                      | _ => []
                      end) h.


(** ** Reading a quoted identifier back

    How MySQL reads an identifier quoted in backticks: inside the quotes a
    doubled backtick stands for one backtick, a single one closes the
    identifier. *)

Module Sql.

(** The name up to the closing backtick, and the text behind it. *)
Fixpoint read_quoted (s : string) : option (string * string) :=
  match s with
  | EmptyString => None
  | String c rest =>
      if (c =? "`")%char then
        match rest with
        | String c' rest' =>
            if (c' =? "`")%char
            then match read_quoted rest' with
                 | Some (name, behind) => Some (String c name, behind)
                 | None => None
                 end
            else Some (EmptyString, rest)
        | EmptyString => Some (EmptyString, EmptyString)
        end
      else match read_quoted rest with
           | Some (name, behind) => Some (String c name, behind)
           | None => None
           end
  end.

Definition read_identifier (s : string) : option (string * string) :=
  match s with
  | String c rest => if (c =? "`")%char then read_quoted rest else None
  | EmptyString => None
  end.

Definition starts_with_backtick (s : string) : bool :=
  match s with
  | String c _ => (c =? "`")%char
  | EmptyString => false
  end.

End Sql.

(** ** The routes of [/diaries] *)

Module Router.

(** What a handler sends: [res.status(s).json(b)]; [res.json(b)] sends
    status 200. *)
Record reply : Type := Reply { status : Z; body : value }.

(** The connection pool: [mysqlPool.getConnection()] resolves to a pooled
    connection of the driver or rejects. *)
Record pool : Type := Pool { getConnection : history -> fallible driver }.

(** What is asked of a request: [req.params.id] and [req.body]. *)
Record request : Type := Request { params_id : value; req_body : value }.

Definition diaryModel : mysqlserver := Mysqlserver "diaries" "id" EmptyString.

Definition openConnectionAsync (p : pool) : M connection :=
  rethrown (fun h => (h, match getConnection p h with
                         | inl e => inl e
                         | inr d => inr (Conn d)
                         end)).

(** [closeConnectionAsync(connection)]: the connections [release()] was
    called on. *)
Definition closeConnectionAsync (c : connection) : list driver :=
  match c with
  | Conn d => [d]
  | ConnFalse => []
  end.

Definition failure (error : exn) : reply :=
  Reply 500 (VObj [("error", VStr (emessage error))]).

(** The frame every handler has: open a connection in the [try], answer
    500 with the message of whatever was raised in the [catch], and in the
    [finally] release the connection if one was obtained.  The result is
    the history, the reply sent and the connections released. *)
Definition handle (p : pool) (work : connection -> M reply)
  : history -> history * reply * list driver :=
  fun h =>
    match openConnectionAsync p h with
    | (h1, inl error) => (h1, failure error, [])
    | (h1, inr conn) =>
        match work conn h1 with
        | (h2, inr sent_reply) => (h2, sent_reply, closeConnectionAsync conn)
        | (h2, inl error) => (h2, failure error, closeConnectionAsync conn)
        end
    end.

Definition message (text : string) : value := VObj [("message", VStr text)].

(** [router.get('/')] *)
Definition get_all (p : pool) (req : request) :=
  handle p (fun conn =>
    diaries <- allAsync diaryModel conn "*" (VStr EmptyString) ;;
    ret (Reply 200 diaries)).

(** [router.get('/:id')] *)
Definition get_one (p : pool) (req : request) :=
  handle p (fun conn =>
    diary <- findOneByFilterAsync diaryModel conn (VObj [("id", params_id req)]) [] "*" ;;
    if Js.truthy diary then ret (Reply 200 diary)
    else ret (Reply 404 (message "Diary not found"))).

(** [router.post('/')] *)
Definition post (p : pool) (req : request) :=
  handle p (fun conn =>
    title <- lift (Js.get (req_body req) "title") ;;
    content <- lift (Js.get (req_body req) "content") ;;
    if negb (Js.truthy title) || negb (Js.truthy content)
    then ret (Reply 400 (message "Title and content are required"))
    else
      diaryId <- insertAsync diaryModel conn (VObj [("title", title); ("content", content)]) ;;
      ret (Reply 201 (VObj [("id", diaryId); ("title", title); ("content", content)]))).

(** [router.put('/:id')] *)
Definition put (p : pool) (req : request) :=
  handle p (fun conn =>
    title <- lift (Js.get (req_body req) "title") ;;
    content <- lift (Js.get (req_body req) "content") ;;
    updated <- updateByFilterAsync diaryModel conn
                 (VObj [("id", params_id req)])
                 (VObj [("title", title); ("content", content)]) ;;
    if Js.truthy updated then ret (Reply 200 (message "Diary updated successfully"))
    else ret (Reply 404 (message "Diary not found"))).

(** [router.delete('/:id')] *)
Definition delete (p : pool) (req : request) :=
  handle p (fun conn =>
    deleted <- deleteByFilterAsync diaryModel conn (VObj [("id", params_id req)]) ;;
    if Js.truthy deleted then ret (Reply 200 (message "Diary deleted successfully"))
    else ret (Reply 404 (message "Diary not found"))).

(** The five routes. *)
Definition handlers : list (pool -> request -> history -> history * reply * list driver) :=
  [get_all; get_one; post; put; delete].

(** What [handle] releases at a history: the connection the pool gives
    there, nothing when the pool fails. *)
Definition acquired (p : pool) (h : history) : list driver :=
  match getConnection p h with
  | inr d => [d]
  | inl _ => []
  end.

(** The reply to a lookup of one diary. *)
Definition found (diary : value) : reply :=
  if Js.truthy diary then Reply 200 diary else Reply 404 (message "Diary not found").

(** The reply to a write that reports [n] affected rows. *)
Definition written (text : string) (n : Z) : reply :=
  if 0 <? n then Reply 200 (message text) else Reply 404 (message "Diary not found").

End Router.

(** The statements of the reads of rows. *)
Definition all_sql (this : mysqlserver) (select orderByClause : string) : string :=
  "SELECT " ++ select ++ " FROM " ++ _escapeFieldName (tableName this) ++ " " ++ orderByClause.

Definition findOne_sql (this : mysqlserver) (select where_ : string) : string :=
  "SELECT " ++ select ++ " FROM " ++ _escapeFieldName (tableName this)
  ++ " " ++ where_ ++ " LIMIT 1".

Definition find_sql (this : mysqlserver) (select where_ orderByClause : string) : string :=
  "SELECT " ++ select ++ " FROM " ++ _escapeFieldName (tableName this)
  ++ " " ++ where_ ++ " " ++ orderByClause.

(** The first element of an array of rows, [false] when there is none. *)
Definition first_or_false (rows : list value) : value :=
  match rows with
  | [] => VBool false
  | row :: _ => row
  end.

(** The array of rows, [false] when it is empty. *)
Definition rows_or_false (rows : list value) : value :=
  match rows with
  | [] => VBool false
  | _ => VArr rows
  end.

(** The three transaction methods with the statement each sends. *)
Definition transaction_methods : list ((connection -> M value) * string) :=
  [(startTransactionAsync, "START TRANSACTION");
   (rollbackTransactionAsync, "ROLLBACK");
   (commitTransactionAsync, "COMMIT")].

(** [array[0]] for an array. *)
Definition first_or_undefined (items : list value) : value :=
  match items with
  | [] => VUndefined
  | x :: _ => x
  end.

(** The errors update and delete raise for a filter they cannot use. *)
Definition update_filter_error : exn := Error "A valid filter condition must be provided.".
Definition delete_filter_error : exn := Error "유효한 필터 조건이 제공되어야 합니다".

(** * Properties *)

Local Open Scope list_scope.

(** ** The monad and [queryAsync] *)

Lemma queryAsync_resolves (d : driver) (sql : string) (values r : value) (h : history) :
  answer d (asked h sql values) sql values = inr r ->
  queryAsync (Conn d) sql values h = (sent h sql values, inr r).
Proof.
  intros Hans.
  unfold queryAsync, rethrown, try_catch, bind, log, emit, driver_query, sent.
  fold (asked h sql values).
  unfold asked in *. rewrite <- app_assoc. simpl. rewrite Hans. reflexivity.
Qed.

Lemma queryAsync_rejects (d : driver) (sql : string) (values : value) (e : exn) (h : history) :
  answer d (asked h sql values) sql values = inl e ->
  queryAsync (Conn d) sql values h
  = ((sent h sql values ++ [logged e])%list, inl (new_Error e)).
Proof.
  intros Hans.
  unfold queryAsync, rethrown, try_catch, bind, log, emit, driver_query, sent, throw.
  unfold asked in *. rewrite <- app_assoc. simpl. rewrite Hans. reflexivity.
Qed.

Lemma queryAsync_false (sql : string) (values : value) (h : history) :
  queryAsync ConnFalse sql values h = (h, inr (VBool false)).
Proof. reflexivity. Qed.

(** ** [_buildWhereClause] *)

Lemma where_loop (likeFields : list string) (es : list (string * value)) :
  forall conditions values,
    fold_left (where_step likeFields) es (conditions, values)
    = ((conditions ++ map (WhereSpec.condition likeFields) (filter WhereSpec.constrains es))%list,
       (values ++ map (WhereSpec.bound likeFields) (filter WhereSpec.constrains es))%list).
Proof.
  induction es as [| [key val] es IH]; intros conditions values.
  - simpl. now rewrite !app_nil_r.
  - cbn [fold_left filter where_step].
    change (WhereSpec.constrains (key, val)) with (negb (nullish val)).
    destruct (nullish val) eqn:Hnull; cbn [negb].
    + apply IH.
    + cbn [map].
      change (WhereSpec.condition likeFields (key, val))
        with (if includes likeFields key
              then (_escapeFieldName key ++ " LIKE ?")%string
              else (_escapeFieldName key ++ " = ?")%string).
      change (WhereSpec.bound likeFields (key, val))
        with (if includes likeFields key
              then VStr ("%" ++ Js.ToString val ++ "%")%string
              else val).
      destruct (includes likeFields key); rewrite IH; unfold push;
        now rewrite <- !app_assoc.
Qed.

Lemma buildWhereClause_mapping (props : list (string * value)) (likeFields : list string) :
  _buildWhereClause (VObj props) likeFields = inr (WhereSpec.where_of props likeFields).
Proof.
  unfold _buildWhereClause, WhereSpec.where_of. simpl.
  destruct props as [| p props]; [reflexivity |].
  cbn [List.length map Nat.eqb].
  rewrite where_loop. cbn [app].
  destruct (map (WhereSpec.condition likeFields) (filter WhereSpec.constrains (p :: props)));
    reflexivity.
Qed.

(** C1.  For every filter mapping and like-field list, [_buildWhereClause]
    yields one condition per entry whose value is neither [null] nor
    [undefined], in the order the mapping enumerates its entries: LIKE with
    the value wrapped in percent signs for a like-field, equality with the
    value as it is otherwise; the conditions are joined by AND behind WHERE,
    the bound values stand in the same order, entries with [null] or
    [undefined] add nothing, and the empty mapping gives the empty clause
    with no bound value. *)
Theorem buildWhereClause_spec :
  forall (props : list (string * value)) (likeFields : list string),
    let kept := filter WhereSpec.constrains props in
    let conditions := map (WhereSpec.condition likeFields) kept in
    _buildWhereClause (VObj props) likeFields
    = inr (WhereSpec.clause conditions, map (WhereSpec.bound likeFields) kept)
    /\ List.length conditions = List.length kept
    /\ (forall entry, In entry kept <-> In entry props /\ nullish (snd entry) = false)
    /\ (conditions <> [] ->
        WhereSpec.clause conditions = ("WHERE " ++ Js.join " AND " conditions)%string)
    /\ _buildWhereClause (VObj []) likeFields = inr (EmptyString, []).
Proof.
  intros props likeFields kept conditions.
  split; [apply buildWhereClause_mapping |].
  split; [unfold conditions; apply length_map |].
  split.
  { intros entry. unfold kept. rewrite filter_In. unfold WhereSpec.constrains.
    destruct (nullish (snd entry)); simpl; intuition congruence. }
  split; [| reflexivity].
  intros Hne. destruct conditions; [contradiction | reflexivity].
Qed.

(** ** Paging *)

Lemma statements_app (h1 h2 : history) :
  statements (h1 ++ h2) = (statements h1 ++ statements h2)%list.
Proof. unfold statements. apply flat_map_app. Qed.

Lemma statements_sent (h : history) (sql : string) (values : value) :
  statements (sent h sql values) = (statements h ++ [(sql, values)])%list.
Proof.
  unfold sent, asked. rewrite !statements_app. simpl. now rewrite app_nil_r.
Qed.






(** ** The cache helper *)

Section CacheFacts.

Variable config_env : value.
Variable JSON_parse : string -> fallible value.
Variable this : redisserver.

Lemma getAsync_run (key : string) (h : history) :
  getAsync config_env this key h = (h ++ [ERedisGet (prefixed config_env key)], inr (looked_up config_env this h key)).
Proof.
  unfold getAsync, try_catch, looked_up.
  destruct (redis_get (redisClient this) h (prefixed config_env key)); reflexivity.
Qed.

(** A truthy stored text that parses is returned parsed; nothing is fetched. *)
Lemma getOrSetCache_hit (key : string) (fetchFunction : M value) (expireSeconds : Z)
    (h : history) (r : value) :
  Js.truthy (looked_up config_env this h key) = true ->
  JSON_parse (Js.ToString (looked_up config_env this h key)) = inr r ->
  getOrSetCache config_env JSON_parse this key fetchFunction expireSeconds h
  = (h ++ [ERedisGet (prefixed config_env key)], inr r).
Proof.
  intros Htruthy Hparse.
  unfold getOrSetCache, try_catch, bind. rewrite getAsync_run, Htruthy. cbn [negb].
  unfold lift. now rewrite Hparse.
Qed.

(** On a miss, an exception of the fetch callback is logged by the helper
    and replaced by the result [null]. *)
Lemma getOrSetCache_fetch_throws (key : string) (fetchFunction : M value)
    (expireSeconds : Z) (h h' : history) (e : exn) :
  Js.truthy (looked_up config_env this h key) = false ->
  fetchFunction (h ++ [ERedisGet (prefixed config_env key)]) = (h', inl e) ->
  getOrSetCache config_env JSON_parse this key fetchFunction expireSeconds h
  = (h' ++ [ELog "error" "Redis getOrSetCache error:" (exn_to_string e)], inr VNull).
Proof.
  intros Hmiss Hfetch.
  unfold getOrSetCache, try_catch. unfold bind at 1. rewrite getAsync_run, Hmiss.
  cbn [negb]. unfold bind at 1. rewrite Hfetch. reflexivity.
Qed.


(** On a miss, a truthy fetch result is serialized and handed to
    [setAsync]; it is returned when [setAsync] resolves, whatever it
    resolves to. *)
Lemma getOrSetCache_fetch_stored (key : string) (fetchFunction : M value)
    (expireSeconds : Z) (h h' h'' : history) (r stored : value) :
  Js.truthy (looked_up config_env this h key) = false ->
  fetchFunction (h ++ [ERedisGet (prefixed config_env key)]) = (h', inr r) ->
  Js.truthy r = true ->
  setAsync config_env this key (JSON.stringify r) expireSeconds h' = (h'', inr stored) ->
  getOrSetCache config_env JSON_parse this key fetchFunction expireSeconds h = (h'', inr r).
Proof.
  intros Hmiss Hfetch Htruthy Hset.
  unfold getOrSetCache, try_catch. unfold bind at 1. rewrite getAsync_run, Hmiss.
  cbn [negb]. unfold bind at 1. rewrite Hfetch. rewrite Htruthy.
  unfold bind. rewrite Hset. reflexivity.
Qed.

(** When [setAsync] rejects, the helper logs and returns [null]. *)
Lemma getOrSetCache_store_rejects (key : string) (fetchFunction : M value)
    (expireSeconds : Z) (h h' h'' : history) (r : value) (e : exn) :
  Js.truthy (looked_up config_env this h key) = false ->
  fetchFunction (h ++ [ERedisGet (prefixed config_env key)]) = (h', inr r) ->
  Js.truthy r = true ->
  setAsync config_env this key (JSON.stringify r) expireSeconds h' = (h'', inl e) ->
  getOrSetCache config_env JSON_parse this key fetchFunction expireSeconds h
  = (h'' ++ [ELog "error" "Redis getOrSetCache error:" (exn_to_string e)], inr VNull).
Proof.
  intros Hmiss Hfetch Htruthy Hset.
  unfold getOrSetCache, try_catch. unfold bind at 1. rewrite getAsync_run, Hmiss.
  cbn [negb]. unfold bind at 1. rewrite Hfetch. rewrite Htruthy.
  unfold bind. rewrite Hset. reflexivity.
Qed.

(** [setAsync] swallows a failure of [set] that is raised at the call, and
    any failure of [expire]. *)
Lemma setAsync_swallows (key : string) (val : value) (expireTTL : Z) (h : history) :
  (exists e, redis_set (redisClient this) h (prefixed config_env key) val = Throws e)
  \/ (0 < expireTTL
      /\ exists e, redis_expire (redisClient this)
                     (h ++ [ERedisSet (prefixed config_env key) val]) (prefixed config_env key) expireTTL = inl e) ->
  snd (setAsync config_env this key val expireTTL h) = inr (VBool false).
Proof.
  unfold setAsync.
  intros [[e He] | [Httl [e He]]].
  - now rewrite He.
  - apply Z.ltb_lt in Httl. rewrite Httl, He.
    destruct (redis_set (redisClient this) h (prefixed config_env key) val); reflexivity.
Qed.

(** A rejection of the promise [set] returned leaves [setAsync] when no
    expiration is asked for or [expire] succeeds. *)
Lemma setAsync_rejects (key : string) (val : value) (expireTTL : Z) (h : history) (e : exn) :
  redis_set (redisClient this) h (prefixed config_env key) val = Rejects e ->
  expireTTL <= 0
  \/ (exists v, redis_expire (redisClient this)
                  (h ++ [ERedisSet (prefixed config_env key) val]) (prefixed config_env key) expireTTL = inr v) ->
  snd (setAsync config_env this key val expireTTL h) = inl e.
Proof.
  unfold setAsync. intros Hset [Httl | [v Hv]]; rewrite Hset.
  - apply Z.ltb_ge in Httl. now rewrite Httl.
  - rewrite Hv. destruct (0 <? expireTTL); reflexivity.
Qed.

End CacheFacts.

(** C3, evaluated where the store step fails.  A miss, a fetch that yields
    ["fresh"], and a cache whose SET is refused while EXPIRE replies: the
    rejection of the promise [set] returned is not caught in [setAsync],
    reaches the handler of [getOrSetCache], and the caller gets [null], not
    the fresh result.  The same happens with an unreachable cache when no
    expiration is asked for; with an expiration, the failure of [expire] is
    caught there and the fresh result is returned. *)
Theorem getOrSetCache_store_failure_returns_null :
  forall (config_env : value) (JSON_parse : string -> fallible value),
    let key := prefixed config_env "k" in
    let stored := JSON.stringify (VStr "fresh") in
    getOrSetCache config_env JSON_parse (Redisserver Examples.full_client) "k"
      (ret (VStr "fresh")) 60 []
    = ([ERedisGet key; ERedisSet key stored; ERedisExpire key 60;
        ELog "error" "Redis getOrSetCache error:" (exn_to_string Examples.oom)],
       inr VNull)
    /\ getOrSetCache config_env JSON_parse (Redisserver Examples.closed_client) "k"
         (ret (VStr "fresh")) 0 []
       = ([ERedisGet key; ERedisSet key stored;
           ELog "error" "Redis getOrSetCache error:" (exn_to_string Examples.closed)],
          inr VNull)
    /\ getOrSetCache config_env JSON_parse (Redisserver Examples.closed_client) "k"
         (ret (VStr "fresh")) 60 []
       = ([ERedisGet key; ERedisSet key stored; ERedisExpire key 60],
          inr (VStr "fresh")).
Proof.
  intros config_env JSON_parse key stored. repeat split.
Qed.

(** ** Errors of the primary store *)

(** The exception a read raises for a driver error [e]: [queryAsync] wraps
    it in a new [Error], and the method's own handler wraps that again; the
    driver's text stays readable at the end of the message. *)
Lemma rethrown_message (e : exn) :
  exn_to_string e <> EmptyString ->
  emessage (new_Error (new_Error e)) = ("Error: " ++ exn_to_string e)%string.
Proof.
  intros Hne. unfold new_Error, Error. cbn [emessage].
  unfold exn_to_string at 1. cbn [ename emessage].
  destruct (exn_to_string e); [contradiction | reflexivity].
Qed.

Lemma findByFilterAsync_rethrows (this : mysqlserver) (d : driver)
    (props : list (string * value)) (likeFields : list string) (select : string)
    (orderBy : value) (orderByClause : string) (h : history) (e : exn) :
  _buildOrderByClause this orderBy = inr orderByClause ->
  let where_ := fst (WhereSpec.where_of props likeFields) in
  let values := VArr (snd (WhereSpec.where_of props likeFields)) in
  let sql := ("SELECT " ++ select ++ " FROM " ++ _escapeFieldName (tableName this)
              ++ " " ++ where_ ++ " " ++ orderByClause)%string in
  answer d (asked h sql values) sql values = inl e ->
  findByFilterAsync this (Conn d) (VObj props) likeFields select orderBy h
  = (sent h sql values ++ [logged e; logged (new_Error e)],
     inl (new_Error (new_Error e))).
Proof.
  intros Hsort where_ values sql Hans.
  unfold findByFilterAsync. cbn [not_plain_object Js.typeof_object Js.isArray negb orb].
  unfold bind at 1, lift at 1. rewrite buildWhereClause_mapping.
  subst sql values where_. destruct (WhereSpec.where_of props likeFields) as [w vs].
  cbn [fst snd] in *.
  unfold bind at 1, lift at 1. rewrite Hsort.
  unfold rethrown at 1, try_catch. rewrite (queryAsync_rejects _ _ _ _ _ Hans).
  unfold bind, log, emit, throw, logged. now rewrite <- app_assoc.
Qed.

Lemma findOneByFilterAsync_rethrows (this : mysqlserver) (d : driver)
    (props : list (string * value)) (likeFields : list string) (select : string)
    (h : history) (e : exn) :
  let where_ := fst (WhereSpec.where_of props likeFields) in
  let values := VArr (snd (WhereSpec.where_of props likeFields)) in
  let sql := ("SELECT " ++ select ++ " FROM " ++ _escapeFieldName (tableName this)
              ++ " " ++ where_ ++ " LIMIT 1")%string in
  answer d (asked h sql values) sql values = inl e ->
  findOneByFilterAsync this (Conn d) (VObj props) likeFields select h
  = (sent h sql values ++ [logged e; logged (new_Error e)],
     inl (new_Error (new_Error e))).
Proof.
  intros where_ values sql Hans.
  unfold findOneByFilterAsync. cbn [not_plain_object Js.typeof_object Js.isArray negb orb].
  unfold bind at 1, lift at 1. rewrite buildWhereClause_mapping.
  subst sql values where_. destruct (WhereSpec.where_of props likeFields) as [w vs].
  cbn [fst snd] in *.
  unfold rethrown at 1, try_catch. unfold bind at 1.
  rewrite (queryAsync_rejects _ _ _ _ _ Hans).
  unfold bind, log, emit, throw, logged. now rewrite <- app_assoc.
Qed.

Lemma countByFilterAsync_rethrows (this : mysqlserver) (d : driver)
    (props : list (string * value)) (likeFields : list string)
    (h : history) (e : exn) :
  let where_ := fst (WhereSpec.where_of props likeFields) in
  let values := VArr (snd (WhereSpec.where_of props likeFields)) in
  let sql := count_sql this where_ in
  answer d (asked h sql values) sql values = inl e ->
  countByFilterAsync this (Conn d) (VObj props) likeFields h
  = (sent h sql values ++ [logged e; logged (new_Error e)],
     inl (new_Error (new_Error e))).
Proof.
  intros where_ values sql Hans.
  unfold countByFilterAsync. cbn [not_plain_object Js.typeof_object Js.isArray negb orb].
  unfold bind at 1, lift at 1. rewrite buildWhereClause_mapping.
  subst sql values where_. destruct (WhereSpec.where_of props likeFields) as [w vs].
  cbn [fst snd] in *.
  unfold rethrown at 1, try_catch. unfold bind at 1.
  rewrite (queryAsync_rejects _ _ _ _ _ Hans).
  unfold bind, log, emit, throw, logged. now rewrite <- app_assoc.
Qed.

Lemma allAsync_rethrows (this : mysqlserver) (d : driver) (select : string)
    (orderBy : value) (orderByClause : string) (h : history) (e : exn) :
  _buildOrderByClause this orderBy = inr orderByClause ->
  let sql := ("SELECT " ++ select ++ " FROM " ++ _escapeFieldName (tableName this)
              ++ " " ++ orderByClause)%string in
  answer d (asked h sql (VObj [])) sql (VObj []) = inl e ->
  allAsync this (Conn d) select orderBy h
  = (sent h sql (VObj []) ++ [logged e; logged (new_Error e)],
     inl (new_Error (new_Error e))).
Proof.
  intros Hsort sql Hans. subst sql.
  unfold allAsync. unfold bind at 1, lift at 1. rewrite Hsort.
  unfold rethrown at 1, try_catch. unfold bind at 1.
  rewrite (queryAsync_rejects _ _ _ _ _ Hans).
  unfold bind, log, emit, throw, logged. now rewrite <- app_assoc.
Qed.

Lemma findByPageAsync_rethrows (this : mysqlserver) (d : driver)
    (props : list (string * value)) (likeFields : list string) (select : string)
    (page pageSize : Z) (sort : value) (orderByClause : string) (h : history) (e : exn) :
  _buildOrderByClause this sort = inr orderByClause ->
  let where_ := fst (WhereSpec.where_of props likeFields) in
  let values := snd (WhereSpec.where_of props likeFields) in
  let sql := page_sql this select where_ orderByClause in
  let binds := VArr (values ++ [VInt pageSize; VInt ((page - 1) * pageSize)]) in
  answer d (asked h sql binds) sql binds = inl e ->
  findByPageAsync this (Conn d) (VObj props) likeFields select page pageSize sort h
  = (sent h sql binds ++ [logged e; logged (new_Error e)],
     inl (new_Error (new_Error e))).
Proof.
  intros Hsort where_ values sql binds Hans.
  unfold findByPageAsync, rethrown at 1, try_catch.
  unfold bind at 1, lift at 1. rewrite buildWhereClause_mapping.
  subst binds sql values where_. destruct (WhereSpec.where_of props likeFields) as [w vs].
  cbn [fst snd] in *.
  unfold bind at 1, lift at 1. rewrite Hsort.
  unfold bind at 1. rewrite (queryAsync_rejects _ _ _ _ _ Hans).
  unfold bind, log, emit, throw, logged. now rewrite <- app_assoc.
Qed.

(** Through the cache helper the same error ends as the result [null]. *)
Lemma findByFilterFromCacheAsync_downgrades (config_env : value)
    (JSON_parse : string -> fallible value) (redisServer : redisserver)
    (this : mysqlserver) (d : driver)
    (props : list (string * value)) (likeFields : list string) (select : string)
    (orderBy : value) (orderByClause : string) (expireSeconds : Z) (h : history) (e : exn) :
  _buildOrderByClause this orderBy = inr orderByClause ->
  let key := findByFilter_cacheKey this (VObj props) likeFields select orderBy in
  let h0 := h ++ [ERedisGet (prefixed config_env key)] in
  let where_ := fst (WhereSpec.where_of props likeFields) in
  let values := VArr (snd (WhereSpec.where_of props likeFields)) in
  let sql := ("SELECT " ++ select ++ " FROM " ++ _escapeFieldName (tableName this)
              ++ " " ++ where_ ++ " " ++ orderByClause)%string in
  Js.truthy (looked_up config_env redisServer h key) = false ->
  answer d (asked h0 sql values) sql values = inl e ->
  findByFilterFromCacheAsync config_env JSON_parse redisServer this (Conn d)
    (VObj props) likeFields select orderBy expireSeconds h
  = (sent h0 sql values
       ++ [logged e; logged (new_Error e);
           ELog "error" "Redis getOrSetCache error:"
             (exn_to_string (new_Error (new_Error e)))],
     inr VNull).
Proof.
  intros Hsort key h0 where_ values sql Hmiss Hans.
  unfold findByFilterFromCacheAsync, cache.
  cbn [not_plain_object Js.typeof_object Js.isArray negb orb].
  rewrite (getOrSetCache_fetch_throws config_env JSON_parse redisServer _ _ _ h
             (sent h0 sql values ++ [logged e; logged (new_Error e)])
             (new_Error (new_Error e)) Hmiss).
  - now rewrite <- app_assoc.
  - now apply findByFilterAsync_rethrows.
Qed.


(** ** Update and delete *)

Lemma updateByFilterAsync_mapping (this : mysqlserver) (d : driver)
    (fprops dprops : list (string * value)) (h : history) (r : value) :
  dprops <> [] ->
  let sql := update_sql this (map fst dprops) (where_of_keys (map fst fprops)) in
  let binds := VArr (map snd dprops ++ map snd fprops) in
  answer d (asked h sql binds) sql binds = inr r ->
  updateByFilterAsync this (Conn d) (VObj fprops) (VObj dprops) h
  = affected (sent h sql binds) r.
Proof.
  intros Hne sql binds Hans. subst sql binds.
  destruct dprops as [| p dprops]; [contradiction |].
  unfold updateByFilterAsync, rethrown, try_catch, affected.
  cbv beta iota delta [bind lift ret throw not_nonempty_object not_plain_object
    Js.typeof_object Js.isArray negb orb andb Js.keys Js.values Js.entries].
  unfold update_sql in *. cbn [map List.length Nat.eqb] in *.
  rewrite (queryAsync_resolves _ _ _ _ _ Hans).
  unfold log, emit, logged.
  destruct (Js.get r "affectedRows"); reflexivity.
Qed.

Lemma deleteByFilterAsync_mapping (this : mysqlserver) (d : driver)
    (fprops : list (string * value)) (h : history) (r : value) :
  let sql := delete_sql this (where_of_keys (map fst fprops)) in
  let binds := VArr (map snd fprops) in
  answer d (asked h sql binds) sql binds = inr r ->
  deleteByFilterAsync this (Conn d) (VObj fprops) h
  = affected (sent h sql binds) r.
Proof.
  intros sql binds Hans. subst sql binds.
  unfold deleteByFilterAsync, rethrown, try_catch, affected.
  cbv beta iota delta [bind lift ret throw
    Js.typeof_object Js.isArray negb orb andb Js.keys Js.values Js.entries].
  unfold delete_sql in *.
  rewrite (queryAsync_resolves _ _ _ _ _ Hans).
  unfold log, emit, logged.
  destruct (Js.get r "affectedRows"); reflexivity.
Qed.

(** Whatever the driver answers to a statement sent through [queryAsync],
    the statement has been sent. *)
Ltac settle_query d :=
  match goal with
  | |- context [queryAsync (Conn d) ?sql ?v ?h] =>
      let Hans := fresh "Hans" in
      destruct (answer d (asked h sql v) sql v) eqn:Hans;
      [ rewrite (queryAsync_rejects _ _ _ _ _ Hans)
      | rewrite (queryAsync_resolves _ _ _ _ _ Hans) ]
  end.

Ltac count_statements :=
  unfold log, emit, logged;
  repeat match goal with
         | |- context [Js.get ?r ?k] => destruct (Js.get r k)
         end;
  cbn [fst];
  repeat rewrite statements_app;
  repeat rewrite statements_sent;
  cbn [statements flat_map app];
  repeat rewrite app_nil_r;
  try reflexivity.

Lemma updateByFilterAsync_mapping_sends (this : mysqlserver) (d : driver)
    (fprops dprops : list (string * value)) (h : history) :
  dprops <> [] ->
  statements (fst (updateByFilterAsync this (Conn d) (VObj fprops) (VObj dprops) h))
  = statements h
      ++ [(update_sql this (map fst dprops) (where_of_keys (map fst fprops)),
           VArr (map snd dprops ++ map snd fprops))].
Proof.
  intros Hne. destruct dprops as [| p dprops]; [contradiction |].
  unfold updateByFilterAsync, rethrown, try_catch.
  cbv beta iota delta [bind lift ret throw not_nonempty_object not_plain_object
    Js.typeof_object Js.isArray negb orb andb Js.keys Js.values Js.entries].
  unfold update_sql. cbn [map List.length Nat.eqb].
  settle_query d; count_statements.
Qed.

Lemma updateByFilterAsync_string_sends (this : mysqlserver) (d : driver)
    (s : string) (dprops : list (string * value)) (h : history) :
  dprops <> [] ->
  Js.trim s <> EmptyString ->
  statements (fst (updateByFilterAsync this (Conn d) (VStr s) (VObj dprops) h))
  = statements h ++ [(update_sql this (map fst dprops) s, VArr (map snd dprops))].
Proof.
  intros Hne Hs. destruct dprops as [| p dprops]; [contradiction |].
  unfold updateByFilterAsync, rethrown, try_catch.
  cbv beta iota delta [bind lift ret throw not_nonempty_object not_plain_object
    Js.typeof_object Js.typeof_string Js.isArray negb orb andb
    Js.keys Js.values Js.entries string_of].
  destruct (Js.trim s) eqn:Htrim; [contradiction |].
  unfold update_sql. cbn [map List.length Nat.eqb is_empty_string].
  settle_query d; count_statements.
Qed.

Lemma deleteByFilterAsync_mapping_sends (this : mysqlserver) (d : driver)
    (fprops : list (string * value)) (h : history) :
  statements (fst (deleteByFilterAsync this (Conn d) (VObj fprops) h))
  = statements h
      ++ [(delete_sql this (where_of_keys (map fst fprops)), VArr (map snd fprops))].
Proof.
  unfold deleteByFilterAsync, rethrown, try_catch.
  cbv beta iota delta [bind lift ret throw
    Js.typeof_object Js.isArray negb orb andb Js.keys Js.values Js.entries].
  unfold delete_sql.
  settle_query d; count_statements.
Qed.

Lemma deleteByFilterAsync_string_sends (this : mysqlserver) (d : driver)
    (s : string) (h : history) :
  Js.trim s <> EmptyString ->
  statements (fst (deleteByFilterAsync this (Conn d) (VStr s) h))
  = statements h ++ [(delete_sql this ("WHERE " ++ s), VArr [])].
Proof.
  intros Hs.
  unfold deleteByFilterAsync, rethrown, try_catch.
  cbv beta iota delta [bind lift ret throw
    Js.typeof_object Js.typeof_string Js.isArray negb orb andb
    Js.keys Js.values Js.entries string_of].
  destruct (Js.trim s) eqn:Htrim; [contradiction |].
  unfold delete_sql. cbn [is_empty_string].
  settle_query d; count_statements.
Qed.

(** Validation of the data argument: it fails before any statement, on
    every connection and whatever the filter is. *)
Lemma updateByFilterAsync_rejects_data (this : mysqlserver) (connection : connection)
    (filter datas : value) (h : history) :
  not_nonempty_object datas <> inr false ->
  exists e,
    updateByFilterAsync this connection filter datas h = (h ++ [logged e], inl (new_Error e)).
Proof.
  intros Hbad.
  unfold updateByFilterAsync, rethrown, try_catch.
  unfold bind at 1, lift at 1.
  destruct (not_nonempty_object datas) as [e | [|]] eqn:Hd.
  - exists e. reflexivity.
  - exists (Error "Data must be an object"). reflexivity.
  - contradiction.
Qed.

(** Validation of the filter argument, as the code has it: a filter that is
    neither an object other than an array nor a string with a character
    that is not white space fails before any statement. *)
Lemma updateByFilterAsync_rejects_filter (this : mysqlserver) (connection : connection)
    (filter : value) (dprops : list (string * value)) (h : history) :
  dprops <> [] ->
  Js.typeof_object filter && negb (Js.isArray filter) = false ->
  Js.typeof_string filter && negb (is_empty_string (Js.trim (string_of filter))) = false ->
  updateByFilterAsync this connection filter (VObj dprops) h
  = (h ++ [logged (Error "A valid filter condition must be provided.")],
     inl (new_Error (Error "A valid filter condition must be provided."))).
Proof.
  intros Hne Hobj Hstr. destruct dprops as [| p dprops]; [contradiction |].
  unfold updateByFilterAsync, rethrown, try_catch.
  cbv beta iota delta [bind lift ret throw not_nonempty_object not_plain_object
    Js.keys Js.values Js.entries].
  cbn [Js.typeof_object Js.isArray negb orb map List.length Nat.eqb].
  rewrite Hobj, Hstr. reflexivity.
Qed.

(** C5, evaluated where it fails.  With the empty mapping as filter, the
    method raises nothing before the store: whatever the driver then
    answers, the statement [UPDATE `diaries` SET `title` = ? WHERE ], whose
    WHERE keyword is followed by no condition, has been sent to it. *)
Theorem updateByFilterAsync_empty_mapping_is_sent :
  forall (d : driver) (h : history),
    statements
      (fst (updateByFilterAsync Examples.diaries (Conn d)
              (VObj []) (VObj [("title", VStr "x")]) h))
    = statements h ++ [("UPDATE `diaries` SET `title` = ? WHERE ", VArr [VStr "x"])].
Proof.
  intros d h.
  now rewrite updateByFilterAsync_mapping_sends.
Qed.

(** C6, evaluated where it fails.  The raw predicate [id = 5] goes into the
    statement of update as it is, with no WHERE keyword, and into the
    statement of delete behind a WHERE keyword. *)
Theorem raw_filter_differs_between_update_and_delete :
  forall (d : driver) (h : history),
    statements
      (fst (updateByFilterAsync Examples.diaries (Conn d)
              (VStr "id = 5") (VObj [("title", VStr "x")]) h))
    = statements h ++ [("UPDATE `diaries` SET `title` = ? id = 5", VArr [VStr "x"])]
    /\ statements (fst (deleteByFilterAsync Examples.diaries (Conn d) (VStr "id = 5") h))
       = statements h ++ [("DELETE FROM `diaries` WHERE id = 5", VArr [])].
Proof.
  intros d h. split.
  - now rewrite updateByFilterAsync_string_sends.
  - now rewrite deleteByFilterAsync_string_sends.
Qed.

(** ** Insert *)

Lemma insertAsync_rejects (this : mysqlserver) (connection : connection)
    (datas : value) (h : history) :
  (forall p ps, datas <> VObj (p :: ps)) ->
  exists e, insertAsync this connection datas h = (h, inl e).
Proof.
  intros Hshape. unfold insertAsync.
  destruct datas as [| | b | n | s | items | [| p ps]];
    try (eexists; reflexivity).
  now destruct (Hshape p ps).
Qed.

Lemma insertAsync_resolves (this : mysqlserver) (d : driver)
    (props : list (string * value)) (h : history) (r : value) :
  props <> [] ->
  let sql := insert_sql this (map fst props) in
  let binds := VArr (map snd props) in
  answer d (asked h sql binds) sql binds = inr r ->
  insertAsync this (Conn d) (VObj props) h = (sent h sql binds, inr (inserted r)).
Proof.
  intros Hne sql binds Hans. subst sql binds.
  destruct props as [| p props]; [contradiction |].
  unfold insertAsync, rethrown, try_catch, inserted.
  cbv beta iota delta [bind lift ret throw not_plain_object
    Js.typeof_object Js.isArray negb orb andb Js.keys Js.values Js.entries].
  unfold insert_sql in *. cbn [map List.length Nat.eqb] in *.
  rewrite (queryAsync_resolves _ _ _ _ _ Hans).
  destruct r as [| | [|] | [[| |] | |] | [|] | |]; reflexivity.
Qed.

Lemma insertAsync_rethrows (this : mysqlserver) (d : driver)
    (props : list (string * value)) (h : history) (e : exn) :
  props <> [] ->
  let sql := insert_sql this (map fst props) in
  let binds := VArr (map snd props) in
  answer d (asked h sql binds) sql binds = inl e ->
  insertAsync this (Conn d) (VObj props) h
  = (sent h sql binds ++ [logged e; logged (new_Error e)], inl (new_Error (new_Error e))).
Proof.
  intros Hne sql binds Hans. subst sql binds.
  destruct props as [| p props]; [contradiction |].
  unfold insertAsync, rethrown at 1, try_catch.
  cbv beta iota delta [bind lift ret throw not_plain_object
    Js.typeof_object Js.isArray negb orb andb Js.keys Js.values Js.entries].
  unfold insert_sql in *. cbn [map List.length Nat.eqb] in *.
  rewrite (queryAsync_rejects _ _ _ _ _ Hans).
  unfold log, emit, logged. now rewrite <- app_assoc.
Qed.

(** C7, as the code has it.  [insertAsync] raises with the history
    untouched whenever the data argument is anything but a mapping with at
    least one key (not an object, an array, [null], the empty mapping).
    For a mapping with at least one key, whatever its values are, it sends
    one INSERT with the escaped keys as columns and the values bound as
    they are, and returns the [insertId] of the rows the driver answered,
    or [false] when those rows are falsy; on the connection [false]
    nothing is sent and [false] is returned; an error of the driver is
    rethrown. *)
Theorem insertAsync_contract :
  forall (this : mysqlserver) (datas : value) (h : history),
    ((forall p ps, datas <> VObj (p :: ps)) ->
     forall connection, exists e, insertAsync this connection datas h = (h, inl e))
    /\ (forall props,
          datas = VObj props -> props <> [] ->
          let sql := insert_sql this (map fst props) in
          let binds := VArr (map snd props) in
          insertAsync this ConnFalse datas h = (h, inr (VBool false))
          /\ (forall d r,
                answer d (asked h sql binds) sql binds = inr r ->
                insertAsync this (Conn d) datas h = (sent h sql binds, inr (inserted r)))
          /\ (forall d e,
                answer d (asked h sql binds) sql binds = inl e ->
                insertAsync this (Conn d) datas h
                = (sent h sql binds ++ [logged e; logged (new_Error e)],
                   inl (new_Error (new_Error e))))).
Proof.
  intros this datas h. split.
  - intros Hshape connection. now apply insertAsync_rejects.
  - intros props -> Hne sql binds. split; [| split].
    + destruct props; [contradiction | reflexivity].
    + intros d r Hans. now apply insertAsync_resolves.
    + intros d e Hans. now apply insertAsync_rethrows.
Qed.

(** The insert of [{title: 'x'}] on a store that generates the key 7. *)
Lemma insertAsync_contract_witness :
  insertAsync Examples.diaries (Conn Examples.writing_driver)
    (VObj [("title", VStr "x")]) []
  = (sent [] "INSERT INTO `diaries` (`title`) VALUES (?)" (VArr [VStr "x"]),
     inr (VInt 7))
  /\ exists e, insertAsync Examples.diaries (Conn Examples.writing_driver) (VObj []) []
               = ([], inl e).
Proof.
  split.
  - destruct (insertAsync_contract Examples.diaries (VObj [("title", VStr "x")]) [])
      as [_ Hsent].
    destruct (Hsent [("title", VStr "x")] eq_refl ltac:(discriminate)) as [_ [Hok _]].
    exact (Hok Examples.writing_driver Examples.header eq_refl).
  - destruct (insertAsync_contract Examples.diaries (VObj []) []) as [Hrej _].
    apply Hrej. discriminate.
Defined.

(** C7, as the claim states it, fails: a mapping with a nested value is not
    a flat key-value mapping, and the insert is sent all the same, the
    nested value bound as it is. *)
Lemma insertAsync_accepts_nested_data :
  flat_mapping (VObj [("meta", VObj [("tag", VInt 1)])]) = false
  /\ insertAsync Examples.diaries (Conn Examples.writing_driver)
       (VObj [("meta", VObj [("tag", VInt 1)])]) []
     = (sent [] "INSERT INTO `diaries` (`meta`) VALUES (?)"
             (VArr [VObj [("tag", VInt 1)]]),
        inr (VInt 7)).
Proof. split; reflexivity. Qed.

(** ** Upsert *)

Lemma upsertAsync_sends (this : mysqlserver) (d : driver)
    (fprops dprops : list (string * value)) (h : history) :
  fprops <> [] -> dprops <> [] ->
  statements (fst (upsertAsync this (Conn d) (VObj fprops) (VObj dprops) h))
  = statements h ++ [(upsert_sql this (map fst dprops), VArr (map snd dprops))].
Proof.
  intros Hf Hd.
  destruct fprops as [| p fprops]; [contradiction |].
  destruct dprops as [| q dprops]; [contradiction |].
  unfold upsertAsync, try_catch.
  cbv beta iota delta [bind lift ret throw not_nonempty_object not_plain_object
    connection_query driver_query
    Js.typeof_object Js.isArray negb orb andb Js.keys Js.values Js.entries].
  cbn [map List.length Nat.eqb].
  destruct (answer d h (upsert_sql this (fst q :: map fst dprops))
              (VArr (snd q :: map snd dprops))) as [e | r].
  - unfold log, emit. cbn [fst]. rewrite !statements_app. cbn. now rewrite app_nil_r.
  - destruct (Js.get r "affectedRows"); unfold log, emit; cbn [fst];
      rewrite !statements_app; cbn; now rewrite ?app_nil_r.
Qed.

(** C9.  For every two filters that are non-empty objects, [upsertAsync]
    behaves the same on every connection, data argument and history: same
    statement, same bound values, same log lines, same result.  For data
    that is a non-empty object the one statement sent is built from the
    table name and the keys of the data, with the values of the data
    bound. *)
Theorem upsertAsync_ignores_filter :
  forall (this : mysqlserver) (connection : connection) (filter1 filter2 data : value)
         (props1 props2 : list (string * value)) (h : history),
    filter1 = VObj props1 -> props1 <> [] ->
    filter2 = VObj props2 -> props2 <> [] ->
    upsertAsync this connection filter1 data h = upsertAsync this connection filter2 data h
    /\ (forall d dprops,
          connection = Conn d -> data = VObj dprops -> dprops <> [] ->
          statements (fst (upsertAsync this connection filter1 data h))
          = statements h ++ [(upsert_sql this (map fst dprops), VArr (map snd dprops))]).
Proof.
  intros this connection filter1 filter2 data props1 props2 h -> H1 -> H2.
  split.
  - destruct props1; [contradiction |]. destruct props2; [contradiction |].
    reflexivity.
  - intros d dprops -> -> Hd. now apply upsertAsync_sends.
Qed.

(** Two upserts of [{title: 'x'}] that name different keys send the same
    statement. *)
Lemma upsertAsync_ignores_filter_witness :
  upsertAsync Examples.diaries (Conn Examples.writing_driver)
    (VObj [("id", VInt 1)]) (VObj [("title", VStr "x")]) []
  = upsertAsync Examples.diaries (Conn Examples.writing_driver)
      (VObj [("title", VStr "y"); ("id", VInt 2)]) (VObj [("title", VStr "x")]) []
  /\ statements
       (fst (upsertAsync Examples.diaries (Conn Examples.writing_driver)
               (VObj [("id", VInt 1)]) (VObj [("title", VStr "x")]) []))
     = [(upsert_sql Examples.diaries ["title"], VArr [VStr "x"])].
Proof.
  destruct (upsertAsync_ignores_filter Examples.diaries (Conn Examples.writing_driver)
              (VObj [("id", VInt 1)]) (VObj [("title", VStr "y"); ("id", VInt 2)])
              (VObj [("title", VStr "x")])
              [("id", VInt 1)] [("title", VStr "y"); ("id", VInt 2)] []
              eq_refl ltac:(discriminate) eq_refl ltac:(discriminate))
    as [Hsame Hsent].
  split.
  - exact Hsame.
  - exact (Hsent Examples.writing_driver [("title", VStr "x")]
             eq_refl eq_refl ltac:(discriminate)).
Defined.

(** ** Cache keys *)

Lemma string_app_inv_head (s a b : string) :
  (s ++ a)%string = (s ++ b)%string -> a = b.
Proof.
  induction s as [| c s IH]; simpl; intros H; [exact H |].
  injection H as H. now apply IH.
Qed.

(** C8.  The mappings [{a: 1, b: 2}] and [{b: 2, a: 1}] hold the same
    entries in different insertion order, and for every table, select list
    and order the cached reads [findByFilterFromCacheAsync] and
    [findOneByFilterFromCacheAsync] build different keys for them. *)
Theorem cache_key_depends_on_key_order :
  exists (props1 props2 : list (string * value)),
    Permutation props1 props2
    /\ NoDup (map fst props1)
    /\ forall (this : mysqlserver) (likeFields : list string) (select : string)
              (orderBy : value),
         findByFilter_cacheKey this (VObj props1) likeFields select orderBy
         <> findByFilter_cacheKey this (VObj props2) likeFields select orderBy
         /\ findOne_cacheKey this (VObj props1) likeFields select
            <> findOne_cacheKey this (VObj props2) likeFields select.
Proof.
  exists [("a", VInt 1); ("b", VInt 2)], [("b", VInt 2); ("a", VInt 1)].
  split; [apply perm_swap |].
  split.
  { repeat constructor; simpl; intuition discriminate. }
  intros this likeFields select orderBy.
  unfold findByFilter_cacheKey, findOne_cacheKey, Js.array_join, Js.join.
  cbn [map String.concat Js.ToString JSON.stringify].
  split; intros H.
  - injection H as H. apply string_app_inv_head in H. vm_compute in H. discriminate.
  - injection H as H. apply string_app_inv_head in H. vm_compute in H. discriminate.
Qed.



(** * Further properties of the code *)

From Stdlib Require DecimalZ DecimalPos.

(** ** Escaped identifiers *)

Lemma read_quoted_doubled (name behind : string) :
  Sql.starts_with_backtick behind = false ->
  Sql.read_quoted ((double_backticks name ++ "`") ++ behind)%string = Some (name, behind).
Proof.
  intros Hbehind. induction name as [| c name IH].
  - cbn. destruct behind as [| c' behind']; [reflexivity |].
    cbn in Hbehind. now rewrite Hbehind.
  - cbn [double_backticks]. destruct (Ascii.eqb_spec c "`") as [-> | Hc].
    + cbn. cbn in IH. now rewrite IH.
    + cbn. apply Ascii.eqb_neq in Hc. rewrite Hc. cbn in IH. now rewrite IH.
Qed.

(** X1.  An identifier escaped by [_escapeFieldName] and followed by text
    that does not begin with a backtick is read back, by the rule for
    identifiers quoted in backticks, as exactly the original name, with
    that text left behind it: no character of the name can close the
    quotes. *)
Theorem escapeFieldName_reads_back :
  forall (fieldName behind : string),
    Sql.starts_with_backtick behind = false ->
    Sql.read_identifier (_escapeFieldName fieldName ++ behind)%string
    = Some (fieldName, behind).
Proof.
  intros fieldName behind Hbehind.
  unfold _escapeFieldName. cbn [append Sql.read_identifier Ascii.eqb Bool.eqb].
  now apply read_quoted_doubled.
Qed.

(** A name that holds a backtick, a quote and a statement separator. *)
Lemma escapeFieldName_reads_back_witness :
  Sql.read_identifier (_escapeFieldName "a` = 1; DROP TABLE t; --" ++ " = ?")%string
  = Some ("a` = 1; DROP TABLE t; --", " = ?").
Proof.
  exact (escapeFieldName_reads_back "a` = 1; DROP TABLE t; --" " = ?" eq_refl).
Defined.

(** ** Where the filter's values go *)

Lemma conditions_ignore_values (likeFields : list string) :
  forall props1 props2 : list (string * value),
    map fst props1 = map fst props2 ->
    map (fun p => nullish (snd p)) props1 = map (fun p => nullish (snd p)) props2 ->
    map (WhereSpec.condition likeFields) (filter WhereSpec.constrains props1)
    = map (WhereSpec.condition likeFields) (filter WhereSpec.constrains props2)
    /\ List.length (filter WhereSpec.constrains props1)
       = List.length (filter WhereSpec.constrains props2).
Proof.
  induction props1 as [| [k1 v1] props1 IH]; intros [| [k2 v2] props2] Hk Hn;
    try discriminate; [split; reflexivity |].
  cbn in Hk, Hn. injection Hk as -> Hk. injection Hn as Hv Hn.
  destruct (IH props2 Hk Hn) as [IHc IHl].
  cbn [filter].
  change (WhereSpec.constrains (k2, v1)) with (negb (nullish v1)).
  change (WhereSpec.constrains (k2, v2)) with (negb (nullish v2)).
  rewrite Hv. destruct (nullish v2); cbn [negb]; [now split |].
  cbn [map List.length].
  change (WhereSpec.condition likeFields (k2, v1))
    with (WhereSpec.condition likeFields (k2, v2)).
  split; congruence.
Qed.

(** X2.  The text of the WHERE clause depends on the keys of the filter
    and on which values are [null] or [undefined], never on the values
    themselves: two mappings with the same keys and the same absent values
    give the same clause and as many bound values. *)
Theorem buildWhereClause_text_ignores_values :
  forall (props1 props2 : list (string * value)) (likeFields : list string),
    map fst props1 = map fst props2 ->
    map (fun p => nullish (snd p)) props1 = map (fun p => nullish (snd p)) props2 ->
    exists (clause : string) (values1 values2 : list value),
      _buildWhereClause (VObj props1) likeFields = inr (clause, values1)
      /\ _buildWhereClause (VObj props2) likeFields = inr (clause, values2)
      /\ List.length values1 = List.length values2.
Proof.
  intros props1 props2 likeFields Hk Hn.
  destruct (conditions_ignore_values likeFields props1 props2 Hk Hn) as [Hc Hl].
  rewrite !buildWhereClause_mapping. unfold WhereSpec.where_of.
  do 3 eexists. split; [reflexivity |]. split.
  - now rewrite Hc.
  - now rewrite !length_map.
Qed.

(** A value that looks like SQL changes the bound value, not the clause. *)
Lemma buildWhereClause_text_ignores_values_witness :
  exists (clause : string) (values1 values2 : list value),
    _buildWhereClause (VObj [("id", VInt 5); ("note", VNull)]) [] = inr (clause, values1)
    /\ _buildWhereClause (VObj [("id", VStr "5 OR 1 = 1"); ("note", VUndefined)]) []
       = inr (clause, values2)
    /\ List.length values1 = List.length values2.
Proof.
  exact (buildWhereClause_text_ignores_values
           [("id", VInt 5); ("note", VNull)]
           [("id", VStr "5 OR 1 = 1"); ("note", VUndefined)] [] eq_refl eq_refl).
Defined.

(** ** Reading a count *)

Ltac eval_digit :=
  repeat match goal with
         | |- context [Js.digit 10 ?c] =>
             let v := eval vm_compute in (Js.digit 10 c) in
             change (Js.digit 10 c) with v
         end.

Lemma digits_uint_acc (d : Decimal.uint) :
  forall acc : positive,
    Js.digits 10 (Some (Z.pos acc)) (NilEmpty.string_of_uint d)
    = Some (Z.pos (Pos.of_uint_acc d acc)).
Proof.
  induction d as [| d IH | d IH | d IH | d IH | d IH | d IH | d IH | d IH | d IH | d IH];
    intros acc; cbn [NilEmpty.string_of_uint Js.digits Pos.of_uint_acc];
    [reflexivity | ..]; eval_digit; cbv iota beta; rewrite <- IH; do 2 f_equal; lia.
Qed.

Lemma digits_uint (d : Decimal.uint) :
  Js.digits 10 (Some 0) (NilEmpty.string_of_uint d) = Some (Z.of_N (Pos.of_uint d)).
Proof.
  induction d as [| d IH | d IH | d IH | d IH | d IH | d IH | d IH | d IH | d IH | d IH];
    cbn [NilEmpty.string_of_uint Js.digits Pos.of_uint]; [reflexivity | ..];
    eval_digit; cbv iota beta;
    first [ exact IH | apply (digits_uint_acc d) ].
Qed.

Ltac eval_ws :=
  repeat match goal with
         | |- context [Js.is_ws ?c] =>
             let v := eval vm_compute in (Js.is_ws c) in
             change (Js.is_ws c) with v
         end.

Lemma parseInt_uint (d : Decimal.uint) :
  d <> Decimal.Nil ->
  Js.parseInt_string (NilEmpty.string_of_uint d) = Finite (Z.of_N (Pos.of_uint d))
  /\ Js.parseInt_string (String "-" (NilEmpty.string_of_uint d))
     = Finite (- Z.of_N (Pos.of_uint d)).
Proof.
  intros Hd. pose proof (digits_uint d) as Hdigits.
  destruct d as [| d | d | d | d | d | d | d | d | d | d]; [contradiction | ..].
  all: try (destruct d as [| d | d | d | d | d | d | d | d | d | d]).
  all: cbn [NilEmpty.string_of_uint] in *.
  all: unfold Js.parseInt_string.
  all: cbn [Js.trimStart]; eval_ws; cbv beta iota zeta delta [Js.strip_hex].
  all: split.
  all: match goal with
       | |- context [Js.digits 10 None ?s] =>
           change (Js.digits 10 None s) with (Js.digits 10 (Some 0) s)
       end.
  all: rewrite Hdigits; reflexivity.
Qed.

Lemma parseInt_string_of_Z (n : Z) : Js.parseInt_string (Js.string_of_Z n) = Finite n.
Proof.
  unfold Js.string_of_Z.
  rewrite <- (DecimalZ.of_to n) at 2.
  destruct n as [| p | p]; [reflexivity | |];
    cbn [Z.to_int Z.of_int NilZero.string_of_int];
    pose proof (DecimalPos.Unsigned.to_uint_nonnil p) as Hnil;
    destruct (parseInt_uint (Pos.to_uint p) Hnil) as [Hpos Hneg];
    unfold NilZero.string_of_uint;
    destruct (Pos.to_uint p); try contradiction; assumption.
Qed.




(** ** The ORDER BY clause *)

Lemma sortFields_shape (es : list (string * value)) :
  Forall2 (fun entry field =>
             field = (_escapeFieldName (fst entry) ++ " ASC")%string
             \/ field = (_escapeFieldName (fst entry) ++ " DESC")%string)
          es (map sortField es).
Proof.
  induction es as [| [key val] es IH]; cbn [map]; constructor; [| exact IH].
  unfold sortField. cbn [fst].
  destruct (_ || _); [right | left]; reflexivity.
Qed.

(** X4.  [_buildOrderByClause] fails on [null] alone, with the
    [TypeError] of [Object.keys]; on every other value it yields a clause
    that begins with ORDER BY.  For a mapping with at least one key the
    clause lists, in order, each key escaped and followed by ASC or DESC
    and nothing else, so a direction value never reaches the text; a
    string that is not blank is taken as the clause as it is. *)
Theorem buildOrderByClause_shape :
  forall (this : mysqlserver) (orderBy : value),
    (orderBy = VNull <-> _buildOrderByClause this orderBy = inl Js.TypeError_nullish)
    /\ (orderBy <> VNull ->
        exists s, _buildOrderByClause this orderBy = inr ("ORDER BY " ++ s)%string)
    /\ (forall entry es,
          orderBy = VObj (entry :: es) ->
          exists fields,
            _buildOrderByClause this orderBy
            = inr ("ORDER BY " ++ Js.join ", " fields)%string
            /\ Forall2 (fun e field =>
                          field = (_escapeFieldName (fst e) ++ " ASC")%string
                          \/ field = (_escapeFieldName (fst e) ++ " DESC")%string)
                       (entry :: es) fields)
    /\ (forall s,
          orderBy = VStr s -> Js.trim s <> EmptyString ->
          _buildOrderByClause this orderBy = inr ("ORDER BY " ++ s)%string).
Proof.
  intros this orderBy. split; [| split; [| split]].
  - split.
    + intros ->. reflexivity.
    + unfold _buildOrderByClause. intros H.
      destruct orderBy as [| | b | n | s | items | props];
        try reflexivity; try discriminate H.
      * cbn [Js.typeof_string string_of andb] in H.
        destruct (Js.trim s); cbn in H; discriminate H.
      * destruct items; cbn in H; discriminate H.
      * destruct props; cbn in H; discriminate H.
  - intros Hnull. unfold _buildOrderByClause.
    destruct orderBy as [| | b | n | s | items | props];
      try (eexists; reflexivity); try contradiction.
    + cbn [Js.typeof_string string_of andb].
      destruct (Js.trim s); cbn; eexists; reflexivity.
    + destruct items; cbn; eexists; reflexivity.
    + destruct props; cbn; eexists; reflexivity.
  - intros entry es ->. exists (map sortField (entry :: es)). split.
    + reflexivity.
    + apply sortFields_shape.
  - intros s -> Hs. unfold _buildOrderByClause.
    cbn [Js.typeof_string string_of andb].
    destruct (Js.trim s); [contradiction | reflexivity].
Qed.

(** A sort mapping whose direction is not one of the expected words. *)
Lemma buildOrderByClause_shape_witness :
  _buildOrderByClause Examples.diaries
    (VObj [("title", VStr "desc"); ("id", VStr "; DROP TABLE diaries")])
  = inr "ORDER BY `title` DESC, `id` ASC"
  /\ _buildOrderByClause Examples.diaries (VStr "id ASC, title") = inr "ORDER BY id ASC, title".
Proof.
  destruct (buildOrderByClause_shape Examples.diaries (VStr "id ASC, title"))
    as [_ [_ [_ Hraw]]].
  split.
  - reflexivity.
  - exact (Hraw "id ASC, title" eq_refl ltac:(discriminate)).
Defined.

(** ** The connection [false] *)

Ltac with_where props likeFields :=
  rewrite ?buildWhereClause_mapping;
  destruct (WhereSpec.where_of props likeFields) as [w vs].

(** X5.  On the connection [false] every operation that goes through
    [queryAsync] leaves the history as it is (no statement, no log line)
    and returns its empty answer: [false] for the reads of rows, for
    insert, update and delete, 0 for the count, and for the page an
    object with the documents [false] and the total 0.  [upsertAsync],
    which calls [connection.query] itself, raises a [TypeError] there. *)
Theorem connection_false_is_a_no_op :
  forall (this : mysqlserver) (props dprops : list (string * value))
         (likeFields : list string) (select : string) (orderBy : value)
         (orderByClause : string) (page pageSize : Z) (h : history),
    _buildOrderByClause this orderBy = inr orderByClause ->
    dprops <> [] ->
    allAsync this ConnFalse select orderBy h = (h, inr (VBool false))
    /\ findOneByFilterAsync this ConnFalse (VObj props) likeFields select h
       = (h, inr (VBool false))
    /\ findByFilterAsync this ConnFalse (VObj props) likeFields select orderBy h
       = (h, inr (VBool false))
    /\ countByFilterAsync this ConnFalse (VObj props) likeFields h = (h, inr (VInt 0))
    /\ findByPageAsync this ConnFalse (VObj props) likeFields select page pageSize orderBy h
       = (h, inr (VObj [("documents", VBool false);
                        ("page", VInt page);
                        ("pageSize", VInt pageSize);
                        ("totalCount", VInt 0);
                        ("totalPages", VNum (Js.ceil_div (Finite 0) pageSize))]))
    /\ insertAsync this ConnFalse (VObj dprops) h = (h, inr (VBool false))
    /\ updateByFilterAsync this ConnFalse (VObj props) (VObj dprops) h
       = (h, inr (VBool false))
    /\ deleteByFilterAsync this ConnFalse (VObj props) h = (h, inr (VBool false))
    /\ (props <> [] ->
        exists e,
          ename e = "TypeError"
          /\ upsertAsync this ConnFalse (VObj props) (VObj dprops) h
             = (h ++ [ELog "error" "MySQL upsertAsync error:" (exn_to_string e)], inl e)).
Proof.
  intros this props dprops likeFields select orderBy orderByClause page pageSize h
         Hsort Hd.
  destruct dprops as [| q dprops]; [contradiction |].
  split.
  { unfold allAsync, bind, lift. now rewrite Hsort. }
  split.
  { unfold findOneByFilterAsync, bind, lift. cbn [not_plain_object Js.typeof_object
      Js.isArray negb orb]. now with_where props likeFields. }
  split.
  { unfold findByFilterAsync, bind, lift. cbn [not_plain_object Js.typeof_object
      Js.isArray negb orb]. with_where props likeFields. now rewrite Hsort. }
  split.
  { unfold countByFilterAsync, bind, lift. cbn [not_plain_object Js.typeof_object
      Js.isArray negb orb]. now with_where props likeFields. }
  split.
  { unfold findByPageAsync, rethrown, try_catch, bind, lift.
    with_where props likeFields. now rewrite Hsort. }
  split; [reflexivity |].
  split; [reflexivity |].
  split; [reflexivity |].
  intros Hp. destruct props as [| p props]; [contradiction |].
  exists (Exn "TypeError" "connection.query is not a function").
  split; reflexivity.
Qed.

(** The operations of the diary model on the connection [false]. *)
Lemma connection_false_is_a_no_op_witness :
  countByFilterAsync Examples.diaries ConnFalse (VObj []) [] [] = ([], inr (VInt 0))
  /\ deleteByFilterAsync Examples.diaries ConnFalse (VObj [("id", VInt 1)]) []
     = ([], inr (VBool false)).
Proof.
  destruct (connection_false_is_a_no_op Examples.diaries [] [("title", VStr "x")]
              [] "*" (VStr EmptyString) "ORDER BY `id` DESC" 1 25 []
              eq_refl ltac:(discriminate))
    as [_ [_ [_ [Hcount _]]]].
  destruct (connection_false_is_a_no_op Examples.diaries [("id", VInt 1)]
              [("title", VStr "x")]
              [] "*" (VStr EmptyString) "ORDER BY `id` DESC" 1 25 []
              eq_refl ltac:(discriminate))
    as [_ [_ [_ [_ [_ [_ [_ [Hdelete _]]]]]]]].
  split; assumption.
Defined.

(** ** A filter that is [null] *)

(** X6.  The filter [null] passes the test [typeof filter !== 'object'] of
    every method and fails in [Object.keys]: the reads and [upsertAsync]
    raise that [TypeError] with the history untouched, the page, update
    and delete log it and raise it wrapped; on no connection is a
    statement sent. *)
Theorem null_filter_raises_before_the_store :
  forall (this : mysqlserver) (connection : connection) (likeFields : list string)
         (select : string) (orderBy data : value) (page pageSize : Z)
         (dprops : list (string * value)) (h : history),
    dprops <> [] ->
    let e := Js.TypeError_nullish in
    findOneByFilterAsync this connection VNull likeFields select h = (h, inl e)
    /\ findByFilterAsync this connection VNull likeFields select orderBy h = (h, inl e)
    /\ countByFilterAsync this connection VNull likeFields h = (h, inl e)
    /\ upsertAsync this connection VNull data h = (h, inl e)
    /\ findByPageAsync this connection VNull likeFields select page pageSize orderBy h
       = (h ++ [logged e], inl (new_Error e))
    /\ updateByFilterAsync this connection VNull (VObj dprops) h
       = (h ++ [logged e], inl (new_Error e))
    /\ deleteByFilterAsync this connection VNull h = (h ++ [logged e], inl (new_Error e)).
Proof.
  intros this connection likeFields select orderBy data page pageSize dprops h Hd e.
  destruct dprops as [| q dprops]; [contradiction |].
  split; [reflexivity |]. split; [reflexivity |]. split; [reflexivity |].
  split; [reflexivity |]. split; [reflexivity |]. split; reflexivity.
Qed.

(** The update of the diary model with the filter [null]. *)
Lemma null_filter_raises_before_the_store_witness :
  updateByFilterAsync Examples.diaries (Conn Examples.writing_driver) VNull
    (VObj [("title", VStr "x")]) []
  = ([logged Js.TypeError_nullish], inl (new_Error Js.TypeError_nullish)).
Proof.
  destruct (null_filter_raises_before_the_store Examples.diaries
              (Conn Examples.writing_driver) [] "*" (VStr EmptyString) VNull 1 25
              [("title", VStr "x")] [] ltac:(discriminate))
    as [_ [_ [_ [_ [_ [Hupdate _]]]]]].
  exact Hupdate.
Defined.

(** ** What the reads return for the rows of the store *)

Lemma findOneByFilterAsync_resolves (this : mysqlserver) (d : driver)
    (props : list (string * value)) (likeFields : list string) (select : string)
    (h : history) (rows : list value) :
  let where_ := fst (WhereSpec.where_of props likeFields) in
  let values := VArr (snd (WhereSpec.where_of props likeFields)) in
  let sql := findOne_sql this select where_ in
  answer d (asked h sql values) sql values = inr (VArr rows) ->
  findOneByFilterAsync this (Conn d) (VObj props) likeFields select h
  = (sent h sql values, inr (first_or_false rows)).
Proof.
  intros where_ values sql Hans. subst sql values where_.
  unfold findOneByFilterAsync. cbn [not_plain_object Js.typeof_object Js.isArray negb orb].
  unfold bind at 1, lift at 1. rewrite buildWhereClause_mapping.
  destruct (WhereSpec.where_of props likeFields) as [w vs]. cbn [fst snd] in *.
  unfold rethrown, try_catch. unfold bind at 1. unfold findOne_sql in Hans.
  rewrite (queryAsync_resolves _ _ _ _ _ Hans).
  destruct rows as [| row rows]; [reflexivity |].
  unfold bind, lift. cbn [Js.get String.eqb Ascii.eqb Bool.eqb List.length].
  unfold Js.gt0, VInt. cbn [Js.ToNumber].
  replace (0 <? Z.of_nat (S (List.length rows))) with true
    by (symmetry; apply Z.ltb_lt; lia).
  reflexivity.
Qed.

Lemma allAsync_resolves (this : mysqlserver) (d : driver) (select : string)
    (orderBy : value) (orderByClause : string) (h : history) (rows : list value) :
  _buildOrderByClause this orderBy = inr orderByClause ->
  let sql := all_sql this select orderByClause in
  answer d (asked h sql (VObj [])) sql (VObj []) = inr (VArr rows) ->
  allAsync this (Conn d) select orderBy h = (sent h sql (VObj []), inr (rows_or_false rows)).
Proof.
  intros Hsort sql Hans. subst sql. unfold all_sql in Hans.
  unfold allAsync. unfold bind at 1, lift at 1. rewrite Hsort.
  unfold rethrown, try_catch. unfold bind at 1.
  rewrite (queryAsync_resolves _ _ _ _ _ Hans).
  destruct rows as [| row rows]; [reflexivity |].
  unfold bind, lift. cbn [Js.get String.eqb Ascii.eqb Bool.eqb List.length].
  unfold is_zero, VInt.
  destruct (Z.of_nat (S (List.length rows))) eqn:Hlen; [lia | reflexivity | reflexivity].
Qed.

Lemma findByFilterAsync_resolves (this : mysqlserver) (d : driver)
    (props : list (string * value)) (likeFields : list string) (select : string)
    (orderBy : value) (orderByClause : string) (h : history) (r : value) :
  _buildOrderByClause this orderBy = inr orderByClause ->
  let where_ := fst (WhereSpec.where_of props likeFields) in
  let values := VArr (snd (WhereSpec.where_of props likeFields)) in
  let sql := find_sql this select where_ orderByClause in
  answer d (asked h sql values) sql values = inr r ->
  findByFilterAsync this (Conn d) (VObj props) likeFields select orderBy h
  = (sent h sql values, inr r).
Proof.
  intros Hsort where_ values sql Hans. subst sql values where_.
  unfold findByFilterAsync. cbn [not_plain_object Js.typeof_object Js.isArray negb orb].
  unfold bind at 1, lift at 1. rewrite buildWhereClause_mapping.
  destruct (WhereSpec.where_of props likeFields) as [w vs]. cbn [fst snd] in *.
  unfold bind at 1, lift at 1. rewrite Hsort.
  unfold rethrown, try_catch. unfold find_sql in Hans.
  now rewrite (queryAsync_resolves _ _ _ _ _ Hans).
Qed.

(** X7.  What the three reads of rows make of the array the store
    answers: [findOneByFilterAsync] returns its first row, and [false]
    when it is empty; [allAsync] returns the array, and [false] when it is
    empty; [findByFilterAsync] returns whatever the store answered, the
    empty array included.  Each sends one statement: the SELECT of the
    table with the WHERE clause of the filter, ended by LIMIT 1 for the
    single row and by the ORDER BY clause otherwise. *)
Theorem reads_of_rows :
  forall (this : mysqlserver) (d : driver) (props : list (string * value))
         (likeFields : list string) (select : string) (orderBy : value)
         (orderByClause : string) (h : history),
    _buildOrderByClause this orderBy = inr orderByClause ->
    let where_ := fst (WhereSpec.where_of props likeFields) in
    let values := VArr (snd (WhereSpec.where_of props likeFields)) in
    (forall rows,
        answer d (asked h (findOne_sql this select where_) values)
               (findOne_sql this select where_) values = inr (VArr rows) ->
        findOneByFilterAsync this (Conn d) (VObj props) likeFields select h
        = (sent h (findOne_sql this select where_) values, inr (first_or_false rows)))
    /\ (forall rows,
          answer d (asked h (all_sql this select orderByClause) (VObj []))
                 (all_sql this select orderByClause) (VObj []) = inr (VArr rows) ->
          allAsync this (Conn d) select orderBy h
          = (sent h (all_sql this select orderByClause) (VObj []),
             inr (rows_or_false rows)))
    /\ (forall r,
          answer d (asked h (find_sql this select where_ orderByClause) values)
                 (find_sql this select where_ orderByClause) values = inr r ->
          findByFilterAsync this (Conn d) (VObj props) likeFields select orderBy h
          = (sent h (find_sql this select where_ orderByClause) values, inr r)).
Proof.
  intros this d props likeFields select orderBy orderByClause h Hsort where_ values.
  split; [| split].
  - intros rows Hans. now apply findOneByFilterAsync_resolves.
  - intros rows Hans. now apply allAsync_resolves.
  - intros r Hans. now apply findByFilterAsync_resolves.
Qed.

(** A search that finds no diary, on the table of the one row 'xyz'. *)
Lemma reads_of_rows_witness :
  findOneByFilterAsync Examples.diaries (Conn Examples.xyz_driver)
    (VObj [("title", VStr "y")]) [] "*" []
  = (sent [] "SELECT * FROM `diaries` WHERE `title` = ? LIMIT 1" (VArr [VStr "y"]),
     inr (VBool false))
  /\ findByFilterAsync Examples.diaries (Conn Examples.xyz_driver)
       (VObj [("title", VStr "y")]) [] "*" (VStr EmptyString) []
     = (sent [] "SELECT * FROM `diaries` WHERE `title` = ? ORDER BY `id` DESC"
             (VArr [VStr "y"]),
        inr (VArr [])).
Proof.
  destruct (reads_of_rows Examples.diaries Examples.xyz_driver [("title", VStr "y")] []
              "*" (VStr EmptyString) "ORDER BY `id` DESC" [] eq_refl)
    as [Hone [_ Hmany]].
  split.
  - exact (Hone [] eq_refl).
  - exact (Hmany (VArr []) eq_refl).
Defined.

(** ** More on the cache helper *)

(** X8.  No method of the cache helper that catches lets an exception
    out: whatever the client, the fetch callback and the parser do,
    [getAsync], [expireAsync] and [getOrSetCache] resolve. *)
Theorem cache_helper_never_raises :
  forall (config_env : value) (JSON_parse : string -> fallible value)
         (this : redisserver) (key : string) (fetchFunction : M value)
         (ttl : Z) (h : history),
    (exists v, snd (getAsync config_env this key h) = inr v)
    /\ (exists v, snd (expireAsync config_env this key ttl h) = inr v)
    /\ (exists v,
          snd (getOrSetCache config_env JSON_parse this key fetchFunction ttl h) = inr v).
Proof.
  intros config_env JSON_parse this key fetchFunction ttl h. split; [| split].
  - rewrite getAsync_run. eexists. reflexivity.
  - unfold expireAsync, try_catch.
    destruct (redis_expire (redisClient this) h (prefixed config_env key) ttl);
      eexists; reflexivity.
  - unfold getOrSetCache, try_catch.
    match goal with
    | |- context [bind ?m ?k h] => destruct (bind m k h) as [h' [e | v]]
    end; eexists; reflexivity.
Qed.

Lemma string_of_Z_not_empty (n : Z) : Js.string_of_Z n <> EmptyString.
Proof.
  intros H. pose proof (parseInt_string_of_Z n) as Hparse.
  rewrite H in Hparse. discriminate Hparse.
Qed.

(** The text of a truthy value is a string that is not empty, so what
    [getOrSetCache] stores is found again as a hit. *)
Lemma stringify_truthy (r : value) :
  Js.truthy r = true ->
  exists t, JSON.stringify r = VStr t /\ Js.truthy (VStr t) = true.
Proof.
  intros Hr. unfold JSON.stringify.
  destruct r as [| | [|] | [n | | neg] | s | items | props]; try discriminate Hr;
    cbn [JSON.text]; eexists; (split; [reflexivity |]); try reflexivity.
  pose proof (string_of_Z_not_empty n) as Hn.
  cbn [Js.truthy]. destruct (Js.string_of_Z n); [contradiction | reflexivity].
Qed.

(** X9.  Round trip through a cache that keeps what it is told.  After a
    miss whose fetch result [r] is truthy and was stored, if the client
    now answers the key with the stored text and the parser reads that
    text back as [r], the next call returns [r] after the one lookup and
    never runs its fetch callback, whatever that callback is. *)
Theorem getOrSetCache_round_trip :
  forall (config_env : value) (JSON_parse : string -> fallible value)
         (this : redisserver) (key : string) (fetchFunction : M value)
         (expireSeconds : Z) (h h1 h2 : history) (r stored : value),
    Js.truthy (looked_up config_env this h key) = false ->
    fetchFunction (h ++ [ERedisGet (prefixed config_env key)]) = (h1, inr r) ->
    Js.truthy r = true ->
    setAsync config_env this key (JSON.stringify r) expireSeconds h1 = (h2, inr stored) ->
    redis_get (redisClient this) h2 (prefixed config_env key) = inr (JSON.stringify r) ->
    JSON_parse (Js.ToString (JSON.stringify r)) = inr r ->
    getOrSetCache config_env JSON_parse this key fetchFunction expireSeconds h = (h2, inr r)
    /\ forall (again : M value),
         getOrSetCache config_env JSON_parse this key again expireSeconds h2
         = (h2 ++ [ERedisGet (prefixed config_env key)], inr r).
Proof.
  intros config_env JSON_parse this key fetchFunction expireSeconds h h1 h2 r stored
         Hmiss Hfetch Htruthy Hset Hkept Hparse.
  split.
  - now apply (getOrSetCache_fetch_stored config_env JSON_parse this key fetchFunction
                 expireSeconds h h1 h2 r stored).
  - intros again.
    assert (Hlook : looked_up config_env this h2 key = JSON.stringify r).
    { unfold looked_up. now rewrite Hkept. }
    apply getOrSetCache_hit; rewrite Hlook; [| exact Hparse].
    destruct (stringify_truthy r Htruthy) as [t [-> Ht]]. exact Ht.
Qed.

(** The row 'xyz' fetched once, stored in the cache that keeps, and
    served to a second call whose own fetch would fail. *)
Lemma getOrSetCache_round_trip_witness :
  let env := VStr "dev" in
  let this := Redisserver Examples.memory_client in
  let first := getOrSetCache env Examples.parse_xyz this "k" (ret Examples.xyz) 60 [] in
  snd first = inr Examples.xyz
  /\ getOrSetCache env Examples.parse_xyz this "k"
       (throw (Error "not called")) 60 (fst first)
     = (fst first ++ [ERedisGet "dev_k"], inr Examples.xyz).
Proof.
  intros env this first.
  destruct (getOrSetCache_round_trip env Examples.parse_xyz this "k" (ret Examples.xyz) 60
              [] [ERedisGet "dev_k"]
              [ERedisGet "dev_k"; ERedisSet "dev_k" (JSON.stringify Examples.xyz);
               ERedisExpire "dev_k" 60]
              Examples.xyz (VStr "OK")
              eq_refl eq_refl eq_refl eq_refl eq_refl eq_refl)
    as [Hfirst Hagain].
  split.
  - unfold first. now rewrite Hfirst.
  - unfold first. rewrite Hfirst. exact (Hagain (throw (Error "not called"))).
Defined.





(** X11.  A stored text the parser rejects masks the query: on such a hit
    [getOrSetCache] logs the parser's error and returns [null] after the
    one lookup; the fetch callback, whatever it is, is not run. *)
Theorem unreadable_entry_returns_null :
  forall (config_env : value) (JSON_parse : string -> fallible value)
         (this : redisserver) (key : string) (fetchFunction : M value)
         (expireSeconds : Z) (h : history) (e : exn),
    Js.truthy (looked_up config_env this h key) = true ->
    JSON_parse (Js.ToString (looked_up config_env this h key)) = inl e ->
    getOrSetCache config_env JSON_parse this key fetchFunction expireSeconds h
    = (h ++ [ERedisGet (prefixed config_env key);
             ELog "error" "Redis getOrSetCache error:" (exn_to_string e)],
       inr VNull).
Proof.
  intros config_env JSON_parse this key fetchFunction expireSeconds h e Htruthy Hparse.
  unfold getOrSetCache, try_catch, bind. rewrite getAsync_run, Htruthy. cbn [negb].
  unfold lift. rewrite Hparse. unfold log, emit, ret. now rewrite <- app_assoc.
Qed.

(** A cache that answers every key with a text that is cut short. *)
Lemma unreadable_entry_returns_null_witness :
  getOrSetCache (VStr "dev") Examples.parse_xyz
    (Redisserver (Client (fun _ _ => inr (VStr "{")) (fun _ _ _ => Resolves (VStr "OK"))
                         (fun _ _ _ => inr (VBool true))))
    "k" (ret Examples.xyz) 60 []
  = ([ERedisGet "dev_k";
      ELog "error" "Redis getOrSetCache error:" "SyntaxError: Unexpected token"],
     inr VNull).
Proof.
  exact (unreadable_entry_returns_null (VStr "dev") Examples.parse_xyz
           (Redisserver (Client (fun _ _ => inr (VStr "{"))
                                (fun _ _ _ => Resolves (VStr "OK"))
                                (fun _ _ _ => inr (VBool true))))
           "k" (ret Examples.xyz) 60 [] (Exn "SyntaxError" "Unexpected token")
           eq_refl eq_refl).
Defined.

(** X12.  The commands [setAsync] sends.  The SET of the prefixed key is
    always sent.  An EXPIRE of the same key with the given time follows
    exactly when that time is positive and [set] did not raise at the
    call; with a time of 0 or less the entry is stored with no
    expiration. *)
Theorem setAsync_commands :
  forall (config_env : value) (this : redisserver) (key : string) (val : value)
         (expireTTL : Z) (h : history),
    let k := prefixed config_env key in
    (expireTTL <= 0 ->
     fst (setAsync config_env this key val expireTTL h) = h ++ [ERedisSet k val])
    /\ (0 < expireTTL ->
        (exists e, redis_set (redisClient this) h k val = Throws e) ->
        fst (setAsync config_env this key val expireTTL h) = h ++ [ERedisSet k val])
    /\ (0 < expireTTL ->
        (forall e, redis_set (redisClient this) h k val <> Throws e) ->
        fst (setAsync config_env this key val expireTTL h)
        = h ++ [ERedisSet k val; ERedisExpire k expireTTL]).
Proof.
  intros config_env this key val expireTTL h k. unfold setAsync. fold k.
  split; [| split].
  - intros Httl. apply Z.ltb_ge in Httl. rewrite Httl.
    destruct (redis_set (redisClient this) h k val); reflexivity.
  - intros _ [e He]. now rewrite He.
  - intros Httl Hno. apply Z.ltb_lt in Httl. rewrite Httl.
    destruct (redis_set (redisClient this) h k val) as [e | e | v] eqn:Hset.
    + now destruct (Hno e).
    + destruct (redis_expire (redisClient this) (h ++ [ERedisSet k val]) k expireTTL);
        cbn [fst]; now rewrite <- app_assoc.
    + destruct (redis_expire (redisClient this) (h ++ [ERedisSet k val]) k expireTTL);
        cbn [fst]; now rewrite <- app_assoc.
Qed.

(** An entry stored for a minute and one stored with the time 0. *)
Lemma setAsync_commands_witness :
  fst (setAsync (VStr "dev") (Redisserver Examples.empty_client) "k" (VStr "v") 60 [])
  = [ERedisSet "dev_k" (VStr "v"); ERedisExpire "dev_k" 60]
  /\ fst (setAsync (VStr "dev") (Redisserver Examples.empty_client) "k" (VStr "v") 0 [])
     = [ERedisSet "dev_k" (VStr "v")].
Proof.
  split.
  - destruct (setAsync_commands (VStr "dev") (Redisserver Examples.empty_client) "k"
                (VStr "v") 60 []) as [_ [_ Hboth]].
    apply Hboth; [lia | discriminate].
  - destruct (setAsync_commands (VStr "dev") (Redisserver Examples.empty_client) "k"
                (VStr "v") 0 []) as [Honly _].
    apply Honly. lia.
Defined.

(** ** Cache keys and the delimiter *)

Lemma string_app_assoc (a b c : string) :
  ((a ++ b) ++ c)%string = (a ++ (b ++ c))%string.
Proof.
  induction a as [| x a IH]; cbn; [reflexivity | now rewrite IH].
Qed.

(** X13.  The parts of a cache key are joined by two underscores and not
    escaped, so text moved across the delimiter gives the same key: the
    cached reads with the select list [a__b] and the order [c], and with
    the select list [a] and the order [b__c], share one cache entry,
    although the statements the two queries send are different. *)
Theorem cache_keys_collide_on_the_delimiter :
  forall (this : mysqlserver) (a b c : string),
    all_cacheKey this (a ++ "__" ++ b)%string (VStr c)
    = all_cacheKey this a (VStr (b ++ "__" ++ c)%string)
    /\ (forall filter likeFields,
          findByFilter_cacheKey this filter likeFields (a ++ "__" ++ b)%string (VStr c)
          = findByFilter_cacheKey this filter likeFields a (VStr (b ++ "__" ++ c)%string))
    /\ (forall orderByClause1 orderByClause2,
          all_sql this (a ++ "__" ++ b)%string orderByClause1
          <> all_sql this a orderByClause2).
Proof.
  intros this a b c. split; [| split].
  - unfold all_cacheKey, Js.array_join, Js.join.
    cbn [map String.concat Js.ToString].
    now rewrite !string_app_assoc.
  - intros filter likeFields.
    unfold findByFilter_cacheKey, Js.array_join, Js.join.
    cbn [map String.concat].
    destruct (JSON.stringify filter); cbn [Js.ToString]; now rewrite !string_app_assoc.
  - intros ob1 ob2 H. unfold all_sql in H.
    cbn [append] in H. repeat (injection H as H).
    rewrite string_app_assoc in H.
    apply string_app_inv_head in H. cbn in H. discriminate H.
Qed.

(** ** The cached page *)



(** ** Update, delete and upsert *)

(** X15.  For a mapping filter, update and delete return [true] exactly
    when the header the store answered reports more than 0 affected rows.
    Update binds the values of the data, then those of the filter, in the
    order of the placeholders of its SET and WHERE clauses; delete binds
    the values of the filter. *)
Theorem writes_report_affected_rows :
  forall (this : mysqlserver) (d : driver) (fprops dprops : list (string * value))
         (h : history) (header : list (string * value)) (n : Z),
    dprops <> [] ->
    Js.lookup "affectedRows" header = VInt n ->
    (let sql := update_sql this (map fst dprops) (where_of_keys (map fst fprops)) in
     let binds := VArr (map snd dprops ++ map snd fprops) in
     answer d (asked h sql binds) sql binds = inr (VObj header) ->
     updateByFilterAsync this (Conn d) (VObj fprops) (VObj dprops) h
     = (sent h sql binds, inr (VBool (0 <? n))))
    /\ (let sql := delete_sql this (where_of_keys (map fst fprops)) in
        let binds := VArr (map snd fprops) in
        answer d (asked h sql binds) sql binds = inr (VObj header) ->
        deleteByFilterAsync this (Conn d) (VObj fprops) h
        = (sent h sql binds, inr (VBool (0 <? n)))).
Proof.
  intros this d fprops dprops h header n Hd Hrows. split.
  - intros sql binds Hans.
    rewrite (updateByFilterAsync_mapping this d fprops dprops h (VObj header) Hd Hans).
    unfold affected. cbn [Js.get]. now rewrite Hrows.
  - intros sql binds Hans.
    rewrite (deleteByFilterAsync_mapping this d fprops h (VObj header) Hans).
    unfold affected. cbn [Js.get]. now rewrite Hrows.
Qed.

(** An update and a delete of the diary 1 on a store that reports one
    affected row. *)
Lemma writes_report_affected_rows_witness :
  updateByFilterAsync Examples.diaries (Conn Examples.writing_driver)
    (VObj [("id", VInt 1)]) (VObj [("title", VStr "x")]) []
  = (sent [] "UPDATE `diaries` SET `title` = ? WHERE `id` = ?" (VArr [VStr "x"; VInt 1]),
     inr (VBool true))
  /\ deleteByFilterAsync Examples.diaries (Conn Examples.writing_driver)
       (VObj [("id", VInt 1)]) []
     = (sent [] "DELETE FROM `diaries` WHERE `id` = ?" (VArr [VInt 1]), inr (VBool true)).
Proof.
  destruct (writes_report_affected_rows Examples.diaries Examples.writing_driver
              [("id", VInt 1)] [("title", VStr "x")] []
              [("affectedRows", VInt 1); ("insertId", VInt 7)] 1
              ltac:(discriminate) eq_refl) as [Hupdate Hdelete].
  split.
  - exact (Hupdate eq_refl).
  - exact (Hdelete eq_refl).
Defined.

Lemma deleteByFilterAsync_rejects_filter (this : mysqlserver) (connection : connection)
    (filter : value) (h : history) :
  Js.typeof_object filter && negb (Js.isArray filter) = false ->
  Js.typeof_string filter && negb (is_empty_string (Js.trim (string_of filter))) = false ->
  deleteByFilterAsync this connection filter h
  = (h ++ [logged delete_filter_error], inl (new_Error delete_filter_error)).
Proof.
  intros Hobj Hstr.
  unfold deleteByFilterAsync, rethrown, try_catch.
  cbv beta iota delta [bind lift ret throw].
  rewrite Hobj, Hstr. reflexivity.
Qed.

(** X16.  A filter that is neither an object other than an array nor a
    string with a character that is not white space (an array, a blank
    string, a number, a boolean, [undefined]) is rejected by update and
    by delete alike: each logs its error and raises it wrapped, and the
    history gains that log line only, on every connection. *)
Theorem unusable_filter_is_rejected :
  forall (this : mysqlserver) (connection : connection) (filter : value)
         (dprops : list (string * value)) (h : history),
    dprops <> [] ->
    Js.typeof_object filter && negb (Js.isArray filter) = false ->
    Js.typeof_string filter && negb (is_empty_string (Js.trim (string_of filter))) = false ->
    updateByFilterAsync this connection filter (VObj dprops) h
    = (h ++ [logged update_filter_error], inl (new_Error update_filter_error))
    /\ deleteByFilterAsync this connection filter h
       = (h ++ [logged delete_filter_error], inl (new_Error delete_filter_error))
    /\ statements (h ++ [logged update_filter_error]) = statements h
    /\ statements (h ++ [logged delete_filter_error]) = statements h.
Proof.
  intros this connection filter dprops h Hd Hobj Hstr.
  split; [now apply updateByFilterAsync_rejects_filter |].
  split; [now apply deleteByFilterAsync_rejects_filter |].
  split; rewrite statements_app; cbn; now rewrite app_nil_r.
Qed.

(** A filter of blanks and a filter that is an array. *)
Lemma unusable_filter_is_rejected_witness :
  deleteByFilterAsync Examples.diaries (Conn Examples.writing_driver) (VStr "   ") []
  = ([logged delete_filter_error], inl (new_Error delete_filter_error))
  /\ updateByFilterAsync Examples.diaries (Conn Examples.writing_driver)
       (VArr [VInt 1]) (VObj [("title", VStr "x")]) []
     = ([logged update_filter_error], inl (new_Error update_filter_error)).
Proof.
  destruct (unusable_filter_is_rejected Examples.diaries (Conn Examples.writing_driver)
              (VStr "   ") [("title", VStr "x")] [] ltac:(discriminate) eq_refl eq_refl)
    as [_ [Hdelete _]].
  destruct (unusable_filter_is_rejected Examples.diaries (Conn Examples.writing_driver)
              (VArr [VInt 1]) [("title", VStr "x")] [] ltac:(discriminate) eq_refl eq_refl)
    as [Hupdate _].
  split; assumption.
Defined.

(** X17.  [upsertAsync] validates outside its [try] and rethrows what it
    catches as it is.  An empty filter or empty data raises the plain
    validation error with the history untouched, not even a log line; an
    error of the driver is logged once and raised unchanged, not wrapped
    in a new [Error] as the other methods do; a header answered by the
    store gives [affectedRows > 0].  The statement goes to the driver
    without the two debug lines of [queryAsync]. *)
Theorem upsertAsync_outcomes :
  forall (this : mysqlserver) (d : driver) (fprops dprops : list (string * value))
         (h : history),
    fprops <> [] ->
    dprops <> [] ->
    let sql := upsert_sql this (map fst dprops) in
    let binds := VArr (map snd dprops) in
    (forall connection data,
        upsertAsync this connection (VObj []) data h
        = (h, inl (Error "Filter must be a non-empty object")))
    /\ (forall connection,
          upsertAsync this connection (VObj fprops) (VObj []) h
          = (h, inl (Error "Data must be a non-empty object")))
    /\ (forall e,
          answer d h sql binds = inl e ->
          upsertAsync this (Conn d) (VObj fprops) (VObj dprops) h
          = (h ++ [EQuery sql binds;
                   ELog "error" "MySQL upsertAsync error:" (exn_to_string e)],
             inl e))
    /\ (forall header n,
          answer d h sql binds = inr (VObj header) ->
          Js.lookup "affectedRows" header = VInt n ->
          upsertAsync this (Conn d) (VObj fprops) (VObj dprops) h
          = (h ++ [EQuery sql binds], inr (VBool (0 <? n)))).
Proof.
  intros this d fprops dprops h Hf Hd sql binds.
  destruct fprops as [| p fprops]; [contradiction |].
  destruct dprops as [| q dprops]; [contradiction |].
  split; [reflexivity |]. split; [reflexivity |].
  subst sql binds. cbn [map]. split.
  - intros e Hans.
    unfold upsertAsync, try_catch.
    cbv beta iota delta [bind lift ret throw not_nonempty_object not_plain_object
      connection_query driver_query
      Js.typeof_object Js.isArray negb orb andb Js.keys Js.values Js.entries].
    cbn [map List.length Nat.eqb]. rewrite Hans.
    unfold log, emit. now rewrite <- app_assoc.
  - intros header n Hans Hrows.
    unfold upsertAsync, try_catch.
    cbv beta iota delta [bind lift ret throw not_nonempty_object not_plain_object
      connection_query driver_query
      Js.typeof_object Js.isArray negb orb andb Js.keys Js.values Js.entries].
    cbn [map List.length Nat.eqb]. rewrite Hans.
    cbn [Js.get]. now rewrite Hrows.
Qed.

(** An upsert the database refuses: the error comes back as it was. *)
Lemma upsertAsync_outcomes_witness :
  upsertAsync Examples.diaries (Conn Examples.down_driver)
    (VObj [("id", VInt 1)]) (VObj [("title", VStr "x")]) []
  = ([EQuery (upsert_sql Examples.diaries ["title"]) (VArr [VStr "x"]);
      ELog "error" "MySQL upsertAsync error:" "Error: connect ECONNREFUSED 127.0.0.1:3306"],
     inl Examples.refused).
Proof.
  destruct (upsertAsync_outcomes Examples.diaries Examples.down_driver
              [("id", VInt 1)] [("title", VStr "x")] []
              ltac:(discriminate) ltac:(discriminate)) as [_ [_ [Hraise _]]].
  exact (Hraise Examples.refused eq_refl).
Defined.

(** ** Transactions and procedures *)

(** X18.  Each of the three transaction methods sends its one statement
    with no bound values, straight to the driver; it returns [true]
    whatever rows the driver answers, logs and raises a driver error
    wrapped in a new [Error], and on the connection [false], where
    [queryAsync] would return [false], it raises the [TypeError] of the
    missing [query] method, wrapped, with nothing sent. *)
Theorem transaction_methods_spec :
  forall (method : connection -> M value) (sql : string),
    In (method, sql) transaction_methods ->
    forall (d : driver) (h : history),
      (forall r,
          answer d h sql VUndefined = inr r ->
          method (Conn d) h = (h ++ [EQuery sql VUndefined], inr (VBool true)))
      /\ (forall e,
            answer d h sql VUndefined = inl e ->
            method (Conn d) h
            = (h ++ [EQuery sql VUndefined; logged e], inl (new_Error e)))
      /\ (exists e,
            ename e = "TypeError"
            /\ method ConnFalse h = (h ++ [logged e], inl (new_Error e))).
Proof.
  intros method sql Hin d h.
  assert (Hrun : forall text,
             let m := rethrown (connection_query (Conn d) text VUndefined ;;; ret (VBool true)) in
             (forall r, answer d h text VUndefined = inr r ->
                        m h = (h ++ [EQuery text VUndefined], inr (VBool true)))
             /\ (forall e, answer d h text VUndefined = inl e ->
                           m h = (h ++ [EQuery text VUndefined; logged e],
                                  inl (new_Error e)))).
  { intros text m. subst m.
    unfold rethrown, try_catch, bind, connection_query, driver_query, ret.
    split; intros x Hans; rewrite Hans; [reflexivity |].
    unfold log, emit, throw, logged. now rewrite <- app_assoc. }
  cbn in Hin.
  destruct Hin as [Heq | [Heq | [Heq | []]]]; injection Heq as <- <-;
    (split; [apply Hrun | split; [apply Hrun |]]);
    exists (Exn "TypeError" "connection.query is not a function"); split; reflexivity.
Qed.

(** A commit on a connection that works and a rollback on one that is
    refused. *)
Lemma transaction_methods_spec_witness :
  commitTransactionAsync (Conn Examples.writing_driver) []
  = ([EQuery "COMMIT" VUndefined], inr (VBool true))
  /\ rollbackTransactionAsync (Conn Examples.down_driver) []
     = ([EQuery "ROLLBACK" VUndefined; logged Examples.refused],
        inl (new_Error Examples.refused)).
Proof.
  split.
  - destruct (transaction_methods_spec commitTransactionAsync "COMMIT"
                ltac:(cbn; tauto) Examples.writing_driver []) as [Hok _].
    exact (Hok Examples.header eq_refl).
  - destruct (transaction_methods_spec rollbackTransactionAsync "ROLLBACK"
                ltac:(cbn; tauto) Examples.down_driver []) as [_ [Hfail _]].
    exact (Hfail Examples.refused eq_refl).
Defined.

(** X19.  [callProcedureAsync] sends [call] followed by the text it was
    given, as it is, with the values bound, and returns the first element
    of the array the driver answers ([undefined] for an empty array); a
    driver error and rows that are [null] or [undefined] are logged and
    raised wrapped. *)
Theorem callProcedureAsync_spec :
  forall (d : driver) (sql : string) (values : value) (h : history),
    let statement := ("call " ++ sql)%string in
    (forall sets,
        answer d h statement values = inr (VArr sets) ->
        callProcedureAsync (Conn d) sql values h
        = (h ++ [EQuery statement values], inr (first_or_undefined sets)))
    /\ (forall e,
          answer d h statement values = inl e ->
          callProcedureAsync (Conn d) sql values h
          = (h ++ [EQuery statement values; logged e], inl (new_Error e)))
    /\ (forall rows,
          answer d h statement values = inr rows ->
          nullish rows = true ->
          callProcedureAsync (Conn d) sql values h
          = (h ++ [EQuery statement values; logged (Js.TypeError_read "0")],
             inl (new_Error (Js.TypeError_read "0")))).
Proof.
  intros d sql values h statement. subst statement.
  unfold callProcedureAsync, rethrown, try_catch, bind, connection_query, driver_query,
    lift.
  split; [| split].
  - intros sets Hans. now rewrite Hans.
  - intros e Hans. rewrite Hans. unfold log, emit, throw, logged.
    now rewrite <- app_assoc.
  - intros rows Hans Hnull. rewrite Hans.
    destruct rows; try discriminate Hnull; cbn [Js.get0];
      unfold log, emit, throw, logged; now rewrite <- app_assoc.
Qed.

(** A procedure whose first result set is the row 'xyz'. *)
Lemma callProcedureAsync_spec_witness :
  callProcedureAsync (Conn (Driver (fun _ _ _ => inr (VArr [VArr [Examples.xyz]; VNull]))))
    "find_diary(?)" (VArr [VInt 1]) []
  = ([EQuery "call find_diary(?)" (VArr [VInt 1])], inr (VArr [Examples.xyz])).
Proof.
  destruct (callProcedureAsync_spec
              (Driver (fun _ _ _ => inr (VArr [VArr [Examples.xyz]; VNull])))
              "find_diary(?)" (VArr [VInt 1]) []) as [Hok _].
  exact (Hok [VArr [Examples.xyz]; VNull] eq_refl).
Defined.

(** ** The routes *)

Lemma handle_releases (p : Router.pool) (work : connection -> M Router.reply) (h : history) :
  snd (Router.handle p work h) = Router.acquired p h.
Proof.
  unfold Router.handle, Router.acquired, Router.openConnectionAsync, rethrown, try_catch.
  destruct (Router.getConnection p h) as [e | d]; [reflexivity |].
  destruct (work (Conn d) h) as [h2 [e | r]]; reflexivity.
Qed.

(** X20.  Every route releases the connection it obtained, once, on every
    path (reply sent, validation failed, error caught), and releases
    nothing when the pool gave none. *)
Theorem routes_release_the_connection :
  forall handler,
    In handler Router.handlers ->
    forall (p : Router.pool) (req : Router.request) (h : history),
      snd (handler p req h) = Router.acquired p h
      /\ (forall d, Router.getConnection p h = inr d -> snd (handler p req h) = [d])
      /\ (forall e, Router.getConnection p h = inl e -> snd (handler p req h) = []).
Proof.
  intros handler Hin p req h.
  assert (Hrel : snd (handler p req h) = Router.acquired p h).
  { cbn in Hin.
    destruct Hin as [<- | [<- | [<- | [<- | [<- | []]]]]]; apply handle_releases. }
  split; [exact Hrel |]. rewrite Hrel. unfold Router.acquired.
  split; intros x Hx; now rewrite Hx.
Qed.

(** A creation refused for its body still releases the connection. *)
Lemma routes_release_the_connection_witness :
  snd (Router.post (Router.Pool (fun _ => inr Examples.writing_driver))
         (Router.Request VUndefined (VObj [])) [])
  = [Examples.writing_driver]
  /\ snd (Router.delete (Router.Pool (fun _ => inl Examples.refused))
            (Router.Request (VStr "1") VUndefined) [])
     = [].
Proof.
  split.
  - destruct (routes_release_the_connection Router.post ltac:(cbn; tauto)
                (Router.Pool (fun _ => inr Examples.writing_driver))
                (Router.Request VUndefined (VObj [])) []) as [_ [Hgot _]].
    exact (Hgot Examples.writing_driver eq_refl).
  - destruct (routes_release_the_connection Router.delete ltac:(cbn; tauto)
                (Router.Pool (fun _ => inl Examples.refused))
                (Router.Request (VStr "1") VUndefined) []) as [_ [_ Hnone]].
    exact (Hnone Examples.refused eq_refl).
Defined.

(** X21.  When the pool gives no connection, every route logs the error,
    answers 500 with its text as the [error] of the body, sends no
    statement and releases nothing. *)
Theorem routes_answer_500_without_a_connection :
  forall handler,
    In handler Router.handlers ->
    forall (p : Router.pool) (req : Router.request) (h : history) (e : exn),
      Router.getConnection p h = inl e ->
      handler p req h
      = (h ++ [logged e],
         Router.Reply 500 (VObj [("error", VStr (exn_to_string e))]),
         []).
Proof.
  intros handler Hin p req h e Hpool. cbn in Hin.
  destruct Hin as [<- | [<- | [<- | [<- | [<- | []]]]]];
    unfold Router.get_all, Router.get_one, Router.post, Router.put, Router.delete,
      Router.handle, Router.openConnectionAsync, rethrown, try_catch;
    rewrite Hpool; reflexivity.
Qed.

(** A pool that is exhausted. *)
Lemma routes_answer_500_without_a_connection_witness :
  Router.get_one (Router.Pool (fun _ => inl Examples.refused))
    (Router.Request (VStr "1") VUndefined) []
  = ([logged Examples.refused],
     Router.Reply 500 (VObj [("error", VStr "Error: connect ECONNREFUSED 127.0.0.1:3306")]),
     []).
Proof.
  exact (routes_answer_500_without_a_connection Router.get_one ltac:(cbn; tauto)
           (Router.Pool (fun _ => inl Examples.refused))
           (Router.Request (VStr "1") VUndefined) [] Examples.refused eq_refl).
Defined.

Lemma handle_replies (p : Router.pool) (work : connection -> M Router.reply)
    (h h' : history) (d : driver) (r : Router.reply) :
  Router.getConnection p h = inr d ->
  work (Conn d) h = (h', inr r) ->
  Router.handle p work h = (h', r, [d]).
Proof.
  intros Hpool Hwork.
  unfold Router.handle, Router.openConnectionAsync, rethrown, try_catch.
  rewrite Hpool, Hwork. reflexivity.
Qed.

Lemma handle_fails (p : Router.pool) (work : connection -> M Router.reply)
    (h h' : history) (d : driver) (e : exn) :
  Router.getConnection p h = inr d ->
  work (Conn d) h = (h', inl e) ->
  Router.handle p work h = (h', Router.failure e, [d]).
Proof.
  intros Hpool Hwork.
  unfold Router.handle, Router.openConnectionAsync, rethrown, try_catch.
  rewrite Hpool, Hwork. reflexivity.
Qed.

(** X22.  GET of one diary sends one SELECT of the table by [id], with the
    [id] of the path bound as the string it is and LIMIT 1, and answers
    200 with the first row, or 404 when the store answers no row; GET of
    all diaries answers 200 with the rows, and with the body [false] when
    the table is empty. *)
Theorem routes_get :
  forall (p : Router.pool) (d : driver) (id : string) (body : value) (h : history)
         (rows : list value),
    Router.getConnection p h = inr d ->
    (let sql := "SELECT * FROM `diaries` WHERE `id` = ? LIMIT 1" in
     let binds := VArr [VStr id] in
     answer d (asked h sql binds) sql binds = inr (VArr rows) ->
     Router.get_one p (Router.Request (VStr id) body) h
     = (sent h sql binds, Router.found (first_or_false rows), [d]))
    /\ (let sql := "SELECT * FROM `diaries` ORDER BY `id` DESC" in
        answer d (asked h sql (VObj [])) sql (VObj []) = inr (VArr rows) ->
        Router.get_all p (Router.Request (VStr id) body) h
        = (sent h sql (VObj []), Router.Reply 200 (rows_or_false rows), [d])).
Proof.
  intros p d id body h rows Hpool. split.
  - intros sql binds Hans.
    apply (handle_replies p _ h (sent h sql binds) d _ Hpool).
    unfold bind. cbn [Router.params_id].
    rewrite (findOneByFilterAsync_resolves Router.diaryModel d
               [("id", VStr id)] [] "*" h rows Hans).
    unfold Router.found. destruct (Js.truthy (first_or_false rows)); reflexivity.
  - intros sql Hans.
    apply (handle_replies p _ h (sent h sql (VObj [])) d _ Hpool).
    unfold bind.
    assert (Hans' : answer d
              (asked h (all_sql Router.diaryModel "*" "ORDER BY `id` DESC") (VObj []))
              (all_sql Router.diaryModel "*" "ORDER BY `id` DESC") (VObj [])
            = inr (VArr rows)) by exact Hans.
    now rewrite (allAsync_resolves Router.diaryModel d "*" (VStr EmptyString)
                   "ORDER BY `id` DESC" h rows eq_refl Hans').
Qed.

(** The diary 'xyz' is not found by its id on the table that answers
    equality searches with no row. *)
Lemma routes_get_witness :
  Router.get_one (Router.Pool (fun _ => inr Examples.xyz_driver))
    (Router.Request (VStr "1") VUndefined) []
  = (sent [] "SELECT * FROM `diaries` WHERE `id` = ? LIMIT 1" (VArr [VStr "1"]),
     Router.Reply 404 (VObj [("message", VStr "Diary not found")]),
     [Examples.xyz_driver]).
Proof.
  destruct (routes_get (Router.Pool (fun _ => inr Examples.xyz_driver))
              Examples.xyz_driver "1" VUndefined [] [] eq_refl) as [Hone _].
  exact (Hone eq_refl).
Defined.

(** X23.  POST validates after it has a connection and before any
    statement: a body with a falsy title or content is answered 400 with
    nothing sent to the store, and the connection is released; a body
    that is [null] or [undefined] is answered 500 with the [TypeError] of
    reading it.  With both fields truthy one INSERT binds them in that
    order, and the answer is 201 with the generated [id] and the two
    fields. *)
Theorem routes_post :
  forall (p : Router.pool) (d : driver) (id body : value) (h : history),
    Router.getConnection p h = inr d ->
    (nullish body = true ->
     Router.post p (Router.Request id body) h
     = (h, Router.failure (Js.TypeError_read "title"), [d]))
    /\ (forall title content,
          Js.get body "title" = inr title ->
          Js.get body "content" = inr content ->
          (Js.truthy title && Js.truthy content = false ->
           Router.post p (Router.Request id body) h
           = (h, Router.Reply 400 (Router.message "Title and content are required"), [d]))
          /\ (Js.truthy title && Js.truthy content = true ->
              forall header,
                let sql := "INSERT INTO `diaries` (`title`, `content`) VALUES (?, ?)" in
                let binds := VArr [title; content] in
                answer d (asked h sql binds) sql binds = inr (VObj header) ->
                Router.post p (Router.Request id body) h
                = (sent h sql binds,
                   Router.Reply 201 (VObj [("id", Js.lookup "insertId" header);
                                           ("title", title);
                                           ("content", content)]),
                   [d]))).
Proof.
  intros p d id body h Hpool. split.
  - intros Hnull. apply (handle_fails p _ h h d _ Hpool).
    destruct body; try discriminate Hnull; reflexivity.
  - intros title content Htitle Hcontent. split.
    + intros Hfalsy. apply (handle_replies p _ h h d _ Hpool).
      unfold bind, lift. cbn [Router.req_body]. rewrite Htitle, Hcontent.
      destruct (Js.truthy title), (Js.truthy content); try discriminate Hfalsy;
        reflexivity.
    + intros Htruthy header sql binds Hans.
      apply (handle_replies p _ h (sent h sql binds) d _ Hpool).
      unfold bind at 1, lift at 1. cbn [Router.req_body]. rewrite Htitle.
      unfold bind at 1, lift at 1. rewrite Hcontent.
      apply andb_prop in Htruthy. destruct Htruthy as [-> ->]. cbn [negb orb].
      unfold bind.
      rewrite (insertAsync_resolves Router.diaryModel d
                 [("title", title); ("content", content)] h (VObj header)
                 ltac:(discriminate) Hans).
      reflexivity.
Qed.

(** A diary with no content is refused; a whole one is created with the
    key 7. *)
Lemma routes_post_witness :
  Router.post (Router.Pool (fun _ => inr Examples.writing_driver))
    (Router.Request VUndefined (VObj [("title", VStr "t")])) []
  = ([], Router.Reply 400 (VObj [("message", VStr "Title and content are required")]),
     [Examples.writing_driver])
  /\ Router.post (Router.Pool (fun _ => inr Examples.writing_driver))
       (Router.Request VUndefined (VObj [("title", VStr "t"); ("content", VStr "c")])) []
     = (sent [] "INSERT INTO `diaries` (`title`, `content`) VALUES (?, ?)"
             (VArr [VStr "t"; VStr "c"]),
        Router.Reply 201 (VObj [("id", VInt 7); ("title", VStr "t"); ("content", VStr "c")]),
        [Examples.writing_driver]).
Proof.
  split.
  - destruct (routes_post (Router.Pool (fun _ => inr Examples.writing_driver))
                Examples.writing_driver VUndefined (VObj [("title", VStr "t")]) [] eq_refl)
      as [_ Hbody].
    destruct (Hbody (VStr "t") VUndefined eq_refl eq_refl) as [H400 _].
    exact (H400 eq_refl).
  - destruct (routes_post (Router.Pool (fun _ => inr Examples.writing_driver))
                Examples.writing_driver VUndefined
                (VObj [("title", VStr "t"); ("content", VStr "c")]) [] eq_refl)
      as [_ Hbody].
    destruct (Hbody (VStr "t") (VStr "c") eq_refl eq_refl) as [_ H201].
    exact (H201 eq_refl [("affectedRows", VInt 1); ("insertId", VInt 7)] eq_refl).
Defined.

(** X24.  PUT and DELETE answer by the affected rows the store reports:
    200 when more than 0, 404 otherwise.  DELETE binds the [id] of the
    path; PUT binds title, content and the [id], and validates neither
    field: whatever the body holds for them, [undefined] included, the
    UPDATE is sent. *)
Theorem routes_put_and_delete :
  forall (p : Router.pool) (d : driver) (id : string) (body : value) (h : history)
         (header : list (string * value)) (n : Z),
    Router.getConnection p h = inr d ->
    Js.lookup "affectedRows" header = VInt n ->
    (let sql := "DELETE FROM `diaries` WHERE `id` = ?" in
     let binds := VArr [VStr id] in
     answer d (asked h sql binds) sql binds = inr (VObj header) ->
     Router.delete p (Router.Request (VStr id) body) h
     = (sent h sql binds, Router.written "Diary deleted successfully" n, [d]))
    /\ (forall title content,
          Js.get body "title" = inr title ->
          Js.get body "content" = inr content ->
          let sql := "UPDATE `diaries` SET `title` = ?, `content` = ? WHERE `id` = ?" in
          let binds := VArr [title; content; VStr id] in
          answer d (asked h sql binds) sql binds = inr (VObj header) ->
          Router.put p (Router.Request (VStr id) body) h
          = (sent h sql binds, Router.written "Diary updated successfully" n, [d])).
Proof.
  intros p d id body h header n Hpool Hrows. split.
  - intros sql binds Hans.
    apply (handle_replies p _ h (sent h sql binds) d _ Hpool).
    unfold bind. cbn [Router.params_id].
    rewrite (deleteByFilterAsync_mapping Router.diaryModel d [("id", VStr id)] h
               (VObj header) Hans).
    unfold affected. cbn [Js.get]. rewrite Hrows.
    unfold Router.written, Js.gt0, VInt. cbn [Js.ToNumber Js.truthy].
    destruct (0 <? n); reflexivity.
  - intros title content Htitle Hcontent sql binds Hans.
    apply (handle_replies p _ h (sent h sql binds) d _ Hpool).
    unfold bind at 1, lift at 1. cbn [Router.req_body Router.params_id]. rewrite Htitle.
    unfold bind at 1, lift at 1. rewrite Hcontent.
    unfold bind.
    rewrite (updateByFilterAsync_mapping Router.diaryModel d [("id", VStr id)]
               [("title", title); ("content", content)] h (VObj header)
               ltac:(discriminate) Hans).
    unfold affected. cbn [Js.get]. rewrite Hrows.
    unfold Router.written, Js.gt0, VInt. cbn [Js.ToNumber Js.truthy].
    destruct (0 <? n); reflexivity.
Qed.

(** An update with an empty body on a store that reports one affected
    row: both fields are bound [undefined] and the answer is 200. *)
Lemma routes_put_and_delete_witness :
  Router.put (Router.Pool (fun _ => inr Examples.writing_driver))
    (Router.Request (VStr "1") (VObj [])) []
  = (sent [] "UPDATE `diaries` SET `title` = ?, `content` = ? WHERE `id` = ?"
          (VArr [VUndefined; VUndefined; VStr "1"]),
     Router.Reply 200 (VObj [("message", VStr "Diary updated successfully")]),
     [Examples.writing_driver]).
Proof.
  destruct (routes_put_and_delete (Router.Pool (fun _ => inr Examples.writing_driver))
              Examples.writing_driver "1" (VObj []) []
              [("affectedRows", VInt 1); ("insertId", VInt 7)] 1 eq_refl eq_refl)
    as [_ Hput].
  exact (Hput VUndefined VUndefined eq_refl eq_refl eq_refl).
Defined.

Lemma updateByFilterAsync_rethrows (this : mysqlserver) (d : driver)
    (fprops dprops : list (string * value)) (h : history) (e : exn) :
  dprops <> [] ->
  let sql := update_sql this (map fst dprops) (where_of_keys (map fst fprops)) in
  let binds := VArr (map snd dprops ++ map snd fprops) in
  answer d (asked h sql binds) sql binds = inl e ->
  updateByFilterAsync this (Conn d) (VObj fprops) (VObj dprops) h
  = (sent h sql binds ++ [logged e; logged (new_Error e)], inl (new_Error (new_Error e))).
Proof.
  intros Hne sql binds Hans. subst sql binds.
  destruct dprops as [| q dprops]; [contradiction |].
  unfold updateByFilterAsync, rethrown at 1, try_catch.
  cbv beta iota delta [bind lift ret throw not_nonempty_object not_plain_object
    Js.typeof_object Js.isArray negb orb andb Js.keys Js.values Js.entries].
  unfold update_sql in *. cbn [map List.length Nat.eqb] in *.
  rewrite (queryAsync_rejects _ _ _ _ _ Hans).
  unfold log, emit, logged. now rewrite <- app_assoc.
Qed.

Lemma deleteByFilterAsync_rethrows (this : mysqlserver) (d : driver)
    (fprops : list (string * value)) (h : history) (e : exn) :
  let sql := delete_sql this (where_of_keys (map fst fprops)) in
  let binds := VArr (map snd fprops) in
  answer d (asked h sql binds) sql binds = inl e ->
  deleteByFilterAsync this (Conn d) (VObj fprops) h
  = (sent h sql binds ++ [logged e; logged (new_Error e)], inl (new_Error (new_Error e))).
Proof.
  intros sql binds Hans. subst sql binds.
  unfold deleteByFilterAsync, rethrown at 1, try_catch.
  cbv beta iota delta [bind lift ret throw
    Js.typeof_object Js.isArray negb orb andb Js.keys Js.values Js.entries].
  unfold delete_sql in *.
  rewrite (queryAsync_rejects _ _ _ _ _ Hans).
  unfold log, emit, logged. now rewrite <- app_assoc.
Qed.

(** X25.  When the store refuses the statement of a route, the route
    answers 500, the [error] of the body being the message of the error
    the data-access method raised (the driver's text behind two [Error:]
    prefixes), and the connection is released.  This holds for the reads
    and for the delete; for POST and PUT likewise once the body gave
    their fields. *)
Theorem routes_answer_500_on_store_error :
  forall (p : Router.pool) (d : driver) (id : string) (body : value) (h : history)
         (e : exn),
    Router.getConnection p h = inr d ->
    let reply := Router.Reply 500 (VObj [("error", VStr (exn_to_string (new_Error e)))]) in
    let failed sql binds := (sent h sql binds ++ [logged e; logged (new_Error e)], reply, [d]) in
    (let sql := "SELECT * FROM `diaries` ORDER BY `id` DESC" in
     answer d (asked h sql (VObj [])) sql (VObj []) = inl e ->
     Router.get_all p (Router.Request (VStr id) body) h = failed sql (VObj []))
    /\ (let sql := "SELECT * FROM `diaries` WHERE `id` = ? LIMIT 1" in
        answer d (asked h sql (VArr [VStr id])) sql (VArr [VStr id]) = inl e ->
        Router.get_one p (Router.Request (VStr id) body) h = failed sql (VArr [VStr id]))
    /\ (let sql := "DELETE FROM `diaries` WHERE `id` = ?" in
        answer d (asked h sql (VArr [VStr id])) sql (VArr [VStr id]) = inl e ->
        Router.delete p (Router.Request (VStr id) body) h = failed sql (VArr [VStr id]))
    /\ (forall title content,
          Js.get body "title" = inr title ->
          Js.get body "content" = inr content ->
          (let sql := "UPDATE `diaries` SET `title` = ?, `content` = ? WHERE `id` = ?" in
           let binds := VArr [title; content; VStr id] in
           answer d (asked h sql binds) sql binds = inl e ->
           Router.put p (Router.Request (VStr id) body) h = failed sql binds)
          /\ (let sql := "INSERT INTO `diaries` (`title`, `content`) VALUES (?, ?)" in
              let binds := VArr [title; content] in
              Js.truthy title && Js.truthy content = true ->
              answer d (asked h sql binds) sql binds = inl e ->
              Router.post p (Router.Request (VStr id) body) h = failed sql binds)).
Proof.
  intros p d id body h e Hpool reply failed.
  split; [| split; [| split]].
  - intros sql Hans. unfold failed.
    apply (handle_fails p _ h _ d (new_Error (new_Error e)) Hpool).
    unfold bind.
    now rewrite (allAsync_rethrows Router.diaryModel d "*" (VStr EmptyString)
                   "ORDER BY `id` DESC" h e eq_refl Hans).
  - intros sql Hans. unfold failed.
    apply (handle_fails p _ h _ d (new_Error (new_Error e)) Hpool).
    unfold bind. cbn [Router.params_id].
    now rewrite (findOneByFilterAsync_rethrows Router.diaryModel d [("id", VStr id)] []
                   "*" h e Hans).
  - intros sql Hans. unfold failed.
    apply (handle_fails p _ h _ d (new_Error (new_Error e)) Hpool).
    unfold bind. cbn [Router.params_id].
    now rewrite (deleteByFilterAsync_rethrows Router.diaryModel d [("id", VStr id)]
                   h e Hans).
  - intros title content Htitle Hcontent. split.
    + intros sql binds Hans. unfold failed.
      apply (handle_fails p _ h _ d (new_Error (new_Error e)) Hpool).
      unfold bind at 1, lift at 1. cbn [Router.req_body Router.params_id]. rewrite Htitle.
      unfold bind at 1, lift at 1. rewrite Hcontent.
      unfold bind.
      now rewrite (updateByFilterAsync_rethrows Router.diaryModel d [("id", VStr id)]
                     [("title", title); ("content", content)] h e
                     ltac:(discriminate) Hans).
    + intros sql binds Htruthy Hans. unfold failed.
      apply (handle_fails p _ h _ d (new_Error (new_Error e)) Hpool).
      unfold bind at 1, lift at 1. cbn [Router.req_body]. rewrite Htitle.
      unfold bind at 1, lift at 1. rewrite Hcontent.
      apply andb_prop in Htruthy. destruct Htruthy as [-> ->]. cbn [negb orb].
      unfold bind.
      now rewrite (insertAsync_rethrows Router.diaryModel d
                     [("title", title); ("content", content)] h e
                     ltac:(discriminate) Hans).
Qed.

(** The list of diaries asked of a database that refuses the connection's
    statements. *)
Lemma routes_answer_500_on_store_error_witness :
  Router.get_all (Router.Pool (fun _ => inr Examples.down_driver))
    (Router.Request (VStr "1") VUndefined) []
  = (sent [] "SELECT * FROM `diaries` ORDER BY `id` DESC" (VObj [])
       ++ [logged Examples.refused; logged (new_Error Examples.refused)],
     Router.Reply 500
       (VObj [("error", VStr "Error: Error: connect ECONNREFUSED 127.0.0.1:3306")]),
     [Examples.down_driver]).
Proof.
  destruct (routes_answer_500_on_store_error
              (Router.Pool (fun _ => inr Examples.down_driver)) Examples.down_driver
              "1" VUndefined [] Examples.refused eq_refl) as [Hall _].
  exact (Hall eq_refl).
Defined.

(** X26.  Whatever the pool, the store and the request do, a route
    answers with one of the statuses 200, 201, 400, 404 and 500. *)
Theorem routes_status_codes :
  forall handler,
    In handler Router.handlers ->
    forall (p : Router.pool) (req : Router.request) (h : history),
      In (Router.status (snd (fst (handler p req h)))) [200; 201; 400; 404; 500].
Proof.
  intros handler Hin p req h. cbn in Hin.
  destruct Hin as [<- | [<- | [<- | [<- | [<- | []]]]]];
    unfold Router.get_all, Router.get_one, Router.post, Router.put, Router.delete,
      Router.handle, Router.openConnectionAsync, Router.failure,
      rethrown, try_catch, bind, lift, ret;
    cbv beta;
    repeat match goal with
           | |- context [match ?x with _ => _ end] =>
               lazymatch x with
               | context [match _ with _ => _ end] => fail
               | _ => destruct x
               end
           end;
    cbn [Router.status snd fst In]; auto 10.
Qed.

(** The status of an update on a database that refuses the statement. *)
Lemma routes_status_codes_witness :
  In (Router.status
        (snd (fst (Router.put (Router.Pool (fun _ => inr Examples.down_driver))
                     (Router.Request (VStr "1") (VObj [])) []))))
     [200; 201; 400; 404; 500].
Proof.
  exact (routes_status_codes Router.put ltac:(cbn; tauto)
           (Router.Pool (fun _ => inr Examples.down_driver))
           (Router.Request (VStr "1") (VObj [])) []).
Defined.

(** ** Paging outside its bounds *)

Lemma findByPageAsync_resolves (this : mysqlserver) (d : driver)
    (props : list (string * value)) (likeFields : list string) (select : string)
    (page pageSize : Z) (sort : value) (orderByClause : string) (h : history)
    (documents rows : value) (totalCount : number) :
  _buildOrderByClause this sort = inr orderByClause ->
  let where_ := fst (WhereSpec.where_of props likeFields) in
  let values := snd (WhereSpec.where_of props likeFields) in
  let sql := page_sql this select where_ orderByClause in
  let binds := VArr (values ++ [VInt pageSize; VInt ((page - 1) * pageSize)]) in
  let countSql := page_countSql this where_ in
  answer d (asked h sql binds) sql binds = inr documents ->
  answer d (asked (sent h sql binds) countSql (VArr values)) countSql (VArr values)
  = inr rows ->
  count_of rows = inr totalCount ->
  findByPageAsync this (Conn d) (VObj props) likeFields select page pageSize sort h
  = (sent (sent h sql binds) countSql (VArr values),
     inr (VObj [("documents", documents);
                ("page", VInt page);
                ("pageSize", VInt pageSize);
                ("totalCount", VNum totalCount);
                ("totalPages", VNum (Js.ceil_div totalCount pageSize))])).
Proof.
  intros Hsort where_ values sql binds countSql Hdocs Hrows Hcount.
  unfold findByPageAsync, rethrown, try_catch.
  unfold bind at 1, lift at 1. rewrite buildWhereClause_mapping.
  subst countSql binds sql where_ values.
  destruct (WhereSpec.where_of props likeFields) as [w vs]. cbn [fst snd] in *.
  unfold bind at 1, lift at 1. rewrite Hsort.
  unfold bind at 1. rewrite (queryAsync_resolves _ _ _ _ _ Hdocs).
  unfold bind at 1. rewrite (queryAsync_resolves _ _ _ _ _ Hrows).
  unfold bind, lift. rewrite Hcount. reflexivity.
Qed.

(** X27.  [findByPageAsync] guards neither the page nor the page size.
    For a page below 1 the data statement is sent all the same, its
    OFFSET bound to the negative number [(page - 1) * pageSize]; for the
    page size 0 the page is returned with [totalPages] that is no finite
    number: [NaN] when the total is 0, an infinity otherwise. *)
Theorem findByPageAsync_out_of_bounds :
  forall (this : mysqlserver) (d : driver) (props : list (string * value))
         (likeFields : list string) (select : string) (page pageSize : Z)
         (sort : value) (orderByClause : string) (h : history)
         (documents rows : value) (total : Z),
    _buildOrderByClause this sort = inr orderByClause ->
    let where_ := fst (WhereSpec.where_of props likeFields) in
    let values := snd (WhereSpec.where_of props likeFields) in
    let sql := page_sql this select where_ orderByClause in
    let offset := (page - 1) * pageSize in
    let binds := VArr (values ++ [VInt pageSize; VInt offset]) in
    let countSql := page_countSql this where_ in
    answer d (asked h sql binds) sql binds = inr documents ->
    answer d (asked (sent h sql binds) countSql (VArr values)) countSql (VArr values)
    = inr rows ->
    count_of rows = inr (Finite total) ->
    (page < 1 -> 0 < pageSize ->
     offset < 0
     /\ statements
          (fst (findByPageAsync this (Conn d) (VObj props) likeFields select
                  page pageSize sort h))
        = statements h ++ [(sql, binds); (countSql, VArr values)])
    /\ (pageSize = 0 ->
        findByPageAsync this (Conn d) (VObj props) likeFields select page pageSize sort h
        = (sent (sent h sql binds) countSql (VArr values),
           inr (VObj [("documents", documents);
                      ("page", VInt page);
                      ("pageSize", VInt 0);
                      ("totalCount", VInt total);
                      ("totalPages",
                       VNum (if total =? 0 then NaN else Infinity (total <? 0)))]))).
Proof.
  intros this d props likeFields select page pageSize sort orderByClause h
         documents rows total Hsort where_ values sql offset binds countSql
         Hdocs Hrows Hcount.
  pose proof (findByPageAsync_resolves this d props likeFields select page pageSize sort
                orderByClause h documents rows (Finite total) Hsort Hdocs Hrows Hcount)
    as Hrun.
  split.
  - intros Hpage Hsize. split; [unfold offset; nia |].
    rewrite Hrun. cbn [fst]. rewrite !statements_sent. now rewrite <- app_assoc.
  - intros ->. rewrite Hrun. reflexivity.
Qed.

(** The page 0 of size 10: the offset bound is -10. *)
Lemma findByPageAsync_out_of_bounds_witness :
  statements
    (fst (findByPageAsync Examples.diaries (Conn Examples.counting_driver)
            (VObj []) [] "*" 0 10 (VObj []) []))
  = [(page_sql Examples.diaries "*" EmptyString "ORDER BY `id` DESC",
      VArr [VInt 10; VInt (-10)]);
     (page_countSql Examples.diaries EmptyString, VArr [])].
Proof.
  destruct (findByPageAsync_out_of_bounds Examples.diaries Examples.counting_driver
              [] [] "*" 0 10 (VObj []) "ORDER BY `id` DESC" []
              (VArr [VObj [("CNT", VInt 21)]]) (VArr [VObj [("CNT", VInt 21)]]) 21
              eq_refl eq_refl eq_refl eq_refl) as [Hpage _].
  destruct (Hpage ltac:(lia) ltac:(lia)) as [_ Hsent].
  exact Hsent.
Defined.

(** ** What the cached list stores *)



